(** * ZL3073X DPLL / PTP hardware-clock driver: a shallow embedding

    The driver (src/zl3073x/ptp_zl3073x.c) talks to the chip only through
    [regmap_bulk_read] and [regmap_bulk_write].  Every driver function is
    translated here into a function of a small state-and-fault monad over an
    abstract register bus, so that statements can quantify over every
    behaviour of the hardware, and can be evaluated on a simulated chip.
    The file follows the newest of the driver versions in that source file
    (the one that starts at its first line). *)

From Stdlib Require Import ZArith Lia List Bool.
From stdpp Require Import base option list gmap.
Import ListNotations.
Local Open Scope Z_scope.

(** ** Fixed-width C integers

    Values are mathematical integers; every conversion to a C type is written
    out.  Signed arithmetic wraps (the kernel is built with
    -fno-strict-overflow). *)
Module CInt.

Definition u8  (x : Z) : Z := x mod 2 ^ 8.
Definition u16 (x : Z) : Z := x mod 2 ^ 16.
Definition u32 (x : Z) : Z := x mod 2 ^ 32.
Definition u64 (x : Z) : Z := x mod 2 ^ 64.
Definition s32 (x : Z) : Z := (x + 2 ^ 31) mod 2 ^ 32 - 2 ^ 31.
Definition s64 (x : Z) : Z := (x + 2 ^ 63) mod 2 ^ 64 - 2 ^ 63.

(** [BIT(n)] is [1UL << n]; [GENMASK(h, l)] has bits l..h set. *)
Definition BIT (n : Z) : Z := u64 (Z.shiftl 1 n).
Definition GENMASK (h l : Z) : Z := Z.shiftl (Z.ones (h - l + 1)) l.

(** [~x + 1] on a 32-bit and on a 64-bit signed value. *)
Definition neg_s32 (x : Z) : Z := s32 (Z.lnot x + 1).
Definition neg_s64 (x : Z) : Z := s64 (Z.lnot x + 1).

(** [__ffs(word)]: index of the lowest set bit.  The kernel leaves
    [__ffs(0)] undefined; the generic C implementation runs through all its
    steps and returns BITS_PER_LONG - 1, which is the value used here. *)
Fixpoint ffs_from (fuel : nat) (i : Z) (w : Z) : Z :=
  match fuel with
  | O => i
  | S fuel' => if Z.testbit w i then i else ffs_from fuel' (i + 1) w
  end.
Definition __ffs (w : Z) : Z := ffs_from 63 0 w.

Definition NSEC_PER_SEC : Z := 1000000000.
Definition PSEC_PER_SEC : Z := 1000000000000.

Definition EINVAL : Z := 22.
Definition ERANGE : Z := 34.
Definition EOPNOTSUPP : Z := 95.
Definition ETIMEDOUT : Z := 110.

End CInt.
Import CInt.

(** ** Register map of the chip (the #define block of the driver) *)
Module Reg.

Definition DPLL_TIE_CTRL : Z := 0x2b0.
Definition DPLL_TOD_CTRL (index : Z) : Z := 0x2b8 + index.
Definition DPLL_TOD_CTRL_SEM : Z := BIT 4.
Definition DPLL_DF_OFFSET (index : Z) : Z := 0x300 + index * 0x20.
Definition DPLL_TOD_SEC (index : Z) : Z := 0x312 + index * 0x20.
Definition DPLL_TOD_SEC_SIZE : nat := 6.
Definition DPLL_TOD_NSEC (index : Z) : Z := 0x318 + index * 0x20.
Definition DPLL_TOD_NSEC_SIZE : nat := 6.

Definition DPLL_OUTPUT_CTRL (index : Z) : Z := 0x4a8 + index.
Definition DPLL_OUTPUT_CTRL_SIZE : nat := 1.
Definition DPLL_OUTPUT_CTRL_SYNTH_SEL_GET (val : Z) : Z :=
  Z.shiftr (Z.land val (GENMASK 6 4)) 4.

Definition DPLL_OUTPUT_PHASE_STEP_CTRL : Z := 0x4b8.
Definition DPLL_OUTPUT_PHASE_STEP_CTRL_SIZE : nat := 1.
Definition DPLL_OUTPUT_PHASE_STEP_CTRL_OP (cmd : Z) : Z := Z.land cmd (GENMASK 1 0).
Definition DPLL_OUTPUT_PAHSE_STEP_CTRL_OP_WRITE : Z := 3.
Definition DPLL_OUTPUT_PHASE_STEP_CTRL_OP_MASK : Z := GENMASK 1 0.
Definition DPLL_OUTPUT_PHASE_STEP_CTRL_TOD_STEP : Z := BIT 3.
Definition DPLL_OUTPUT_PHASE_STEP_CTRL_DPLL (index : Z) : Z := Z.shiftl index 4.
Definition DPLL_OUTPUT_PHASE_STEP_NUMBER : Z := 0x4b9.
Definition DPLL_OUTPUT_PHASE_STEP_NUMBER_SIZE : nat := 1.
Definition DPLL_OUTPUT_PHASE_STEP_MASK : Z := 0x4ba.
Definition DPLL_OUTPUT_PHASE_STEP_MASK_SIZE : nat := 2.
Definition DPLL_OUTPUT_PHASE_STEP_DATA : Z := 0x4bc.
Definition DPLL_OUTPUT_PHASE_STEP_DATA_SIZE : nat := 4.

Definition DPLL_REF_MB_MASK : Z := 0x502.
Definition DPLL_REF_MB_SEM : Z := 0x504.
Definition DPLL_REF_MB_SEM_SIZE : nat := 1.
Definition DPLL_REF_MB_SEM_RD : Z := BIT 1.
Definition DPLL_REF_MB_SEM_WR : Z := BIT 0.
Definition DPLL_REF_FREQ_BASE_REG : Z := 0x505.
Definition DPLL_REF_FREQ_BASE_REG_SIZE : nat := 2.
Definition DPLL_REF_FREQ_MULT_REG : Z := 0x507.
Definition DPLL_REF_FREQ_MULT_REG_SIZE : nat := 2.
Definition DPLL_REF_FREQ_RATIO_M_REG : Z := 0x509.
Definition DPLL_REF_FREQ_RATIO_M_REG_SIZE : nat := 2.
Definition DPLL_REF_FREQ_RATIO_N_REG : Z := 0x50B.
Definition DPLL_REF_FREQ_RATIO_N_REG_SIZE : nat := 2.

Definition DPLL_DPLL_MB_MASK : Z := 0x602.
Definition DPLL_DPLL_MB_MASK_SIZE : nat := 2.
Definition DPLL_DPLL_MB_SEM : Z := 0x604.
Definition DPLL_DPLL_MB_SEM_SIZE : nat := 1.
Definition DPLL_DPLL_MB_SEM_RD : Z := BIT 1.
Definition DPLL_DPLL_MB_SEM_WR : Z := BIT 0.

Definition DPLL_REF_PRIORITY (refId : Z) : Z := 0x652 + Z.quot refId 2.

Definition DPLL_SYNTH_MB_MASK : Z := 0x682.
Definition DPLL_SYNTH_MB_MASK_SIZE : nat := 2.
Definition DPLL_SYNTH_MB_SEM : Z := 0x684.
Definition DPLL_SYNTH_MB_SEM_SIZE : nat := 1.
Definition DPLL_SYNTH_MB_SEM_RD : Z := BIT 1.
Definition DPLL_SYNTH_FREQ_BASE : Z := 0x686.
Definition DPLL_SYNTH_FREQ_BASE_SIZE : nat := 2.
Definition DPLL_SYNTH_FREQ_MULT : Z := 0x688.
Definition DPLL_SYNTH_FREQ_MULT_SIZE : nat := 4.
Definition DPLL_SYNTH_FREQ_M : Z := 0x68c.
Definition DPLL_SYNTH_FREQ_M_SIZE : nat := 2.
Definition DPLL_SYNTH_FREQ_N : Z := 0x68e.
Definition DPLL_SYNTH_FREQ_N_SIZE : nat := 2.

Definition DPLL_OUTPUT_MB_MASK : Z := 0x702.
Definition DPLL_OUTPUT_MB_MASK_SIZE : nat := 2.
Definition DPLL_OUTPUT_MB_SEM : Z := 0x704.
Definition DPLL_OUTPUT_MB_SEM_SIZE : nat := 1.
Definition DPLL_OUTPUT_MB_SEM_RD : Z := BIT 1.
Definition DPLL_OUTPUT_MB_SEM_WR : Z := BIT 0.
Definition DPLL_OUTPUT_MODE : Z := 0x705.
Definition DPLL_OUTPUT_MODE_SIGNAL_FORMAT_GET (val : Z) : Z :=
  Z.shiftr (Z.land val (GENMASK 7 4)) 4.
Definition DPLL_OUTPUT_DIV : Z := 0x70c.
Definition DPLL_OUTPUT_DIV_SIZE : nat := 4.
Definition DPLL_OUTPUT_PHASE_COMPENSATION_REG : Z := 0x720.
Definition DPLL_OUTPUT_PHASE_COMPENSATION_REG_SIZE : nat := 4.

Definition ZL3073X_1PPM_FORMAT : Z := 281474976.
Definition READ_SLEEP_US : Z := 10.
Definition READ_TIMEOUT_US : Z := 100000000.

(** enum zl3073x_tod_ctrl_cmd_t *)
Definition ZL3073X_TOD_CTRL_CMD_WRITE_NEXT_1HZ : Z := 0x1.
Definition ZL3073X_TOD_CTRL_CMD_READ : Z := 0x8.
Definition ZL3073X_TOD_CTRL_CMD_READ_NEXT_1HZ : Z := 0x9.



End Reg.
Import Reg.

(** ** The priority nibble macros *)

Definition DPLL_REF_PRIORITY_GET_UPPER (data : Z) : Z :=
  Z.shiftr (Z.land data (GENMASK 7 4)) 4.
Definition DPLL_REF_PRIORITY_GET_LOWER (data : Z) : Z :=
  Z.land data (GENMASK 3 0).
Definition DPLL_REF_PRIORITY_GET (data refId : Z) : Z :=
  if Z.rem refId 2 =? 0 then DPLL_REF_PRIORITY_GET_LOWER data
  else DPLL_REF_PRIORITY_GET_UPPER data.

Definition DPLL_REF_PRIORITY_SET_LOWER (data value : Z) : Z :=
  Z.lor (Z.land data (GENMASK 7 4)) (Z.land value (GENMASK 3 0)).
Definition DPLL_REF_PRIORITY_SET_UPPER (data value : Z) : Z :=
  Z.lor (Z.land data (GENMASK 3 0)) (Z.shiftl (Z.land value (GENMASK 3 0)) 4).
Definition DPLL_REF_PRIORITY_SET (data refId value : Z) : Z :=
  if Z.rem refId 2 =? 0 then DPLL_REF_PRIORITY_SET_LOWER data value
  else DPLL_REF_PRIORITY_SET_UPPER data value.

(** ** The bus and the driver monad *)

(** What the driver does to the outside world.  A read is recorded with the
    status and the bytes the bus returned. *)
Inductive event : Type :=
  | EvRead (addr : Z) (count : nat) (ret : Z) (bytes : list Z)
  | EvWrite (addr : Z) (bytes : list Z)
  | EvDelay (usec : Z)
  | EvLock
  | EvUnlock.

Definition is_write (e : event) : bool :=
  match e with EvWrite _ _ => true | _ => false end.

(** The register bus the driver is attached to ([struct regmap]); its two
    block operations are the ones of the bus-transport collaborator: each
    returns 0 or a negative errno, and may change the chip's state.
    [elapse] lets the chip evolve while the driver waits, and [poll_reads] is
    the number of register reads that fit into READ_TIMEOUT_US on this bus. *)
Class Regmap (D : Type) : Type := {
  regmap_bulk_read : Z -> nat -> D -> Z * list Z * D;
  regmap_bulk_write : Z -> list Z -> D -> Z * D;
  elapse : Z -> D -> D;
  poll_reads : nat;
}.

(** A call either returns, or it runs into an integer division that C leaves
    undefined, such as a division by zero, on which the kernel stops the
    caller with a divide error ([Oops]). *)
Inductive outcome (A : Type) : Type :=
  | Ret (a : A)
  | Oops.
Arguments Ret {A} a.
Arguments Oops {A}.

(** A driver function started on a chip in state [d] yields its outcome, the
    state it leaves the chip in, and the events it caused, in program
    order. *)
Definition M (D A : Type) : Type := D -> outcome A * D * list event.

Definition Return {D A} (a : A) : M D A := fun d => (Ret a, d, []).
Definition oops {D A} : M D A := fun d => (Oops, d, []).
Definition bind {D A B} (m : M D A) (k : A -> M D B) : M D B :=
  fun d => match m d with
           | (Ret a, d1, e1) =>
             match k a d1 with (o, d2, e2) => (o, d2, e1 ++ e2) end
           | (Oops, d1, e1) => (Oops, d1, e1)
           end.
Definition emit {D} (e : event) : M D unit := fun d => (Ret tt, d, [e]).

Definition result {D A} (r : outcome A * D * list event) : outcome A := r.1.1.
Definition chip_after {D A} (r : outcome A * D * list event) : D := r.1.2.
Definition events {D A} (r : outcome A * D * list event) : list event := r.2.

#[global] Instance M_ret {D} : MRet (M D) := fun A a => Return a.
#[global] Instance M_bind {D} : MBind (M D) := fun A B k m => bind m k.

(** C integer division by a value that may be zero. *)
Definition c_div {D} (a b : Z) : M D Z :=
  if b =? 0 then oops else Return (Z.quot a b).

(** [int] division and remainder: undefined also for INT_MIN by -1. *)
Definition int_div_undefined (a b : Z) : bool :=
  (b =? 0) || ((a =? - 2 ^ 31) && (b =? -1)).
Definition c_div_int {D} (a b : Z) : M D Z :=
  if int_div_undefined a b then oops else Return (Z.quot a b).
Definition c_mod_int {D} (a b : Z) : M D Z :=
  if int_div_undefined a b then oops else Return (Z.rem a b).

Section Driver.
Context {D : Type} `{Regmap D}.

(** The device lock is recorded in the trace; callers are not interleaved. *)
Definition mutex_lock : M D unit := emit EvLock.
Definition mutex_unlock : M D unit := emit EvUnlock.

Definition udelay (usec : Z) : M D unit :=
  fun d => (Ret tt, elapse usec d, [EvDelay usec]).
Definition msleep (msec : Z) : M D unit := udelay (msec * 1000).

(** [u8 buf[n]] after [memset(buf, 0, sizeof(buf))]. *)
Definition zeros (n : nat) : list Z := repeat 0 n.

(** [zl3073x_swap]: the loop exchanges swap[i] and swap[count - i - 1] for
    i < count / 2. *)
Definition swap_at (i j : nat) (l : list Z) : list Z :=
  <[j := nth i l 0]> (<[i := nth j l 0]> l).
Definition zl3073x_swap (swap : list Z) (count : nat) : list Z :=
  fold_left (fun l i => swap_at i (count - i - 1) l) (seq 0 (count / 2)) swap.

(** [zl3073x_read]: [count] bytes in device order, as the bus returns them. *)
Definition zl3073x_read (regaddr : Z) (count : nat) : M D (Z * list Z) :=
  fun d =>
    let '(ret, bytes, d') := regmap_bulk_read regaddr count d in
    let buf := map u8 (take count (bytes ++ zeros count)) in
    (Ret (ret, buf), d', [EvRead regaddr count ret buf]).

(** [zl3073x_write]: the buffer is reversed, then its first [count] bytes go
    out on the bus.  The reversal is done in the caller's buffer; no caller
    looks at a buffer again after it has written it. *)
Definition zl3073x_write (regaddr : Z) (buf : list Z) (count : nat) : M D Z :=
  fun d =>
    let bytes := take count (zl3073x_swap buf count) in
    let '(ret, d') := regmap_bulk_write regaddr bytes d in
    (Ret ret, d', [EvWrite regaddr bytes]).

(** Modelled from the spec: [readx_poll_timeout_atomic] is a kernel macro that
    is not part of the driver sources.  It is the spec's [await_clear]: it
    reads with [op] until [cond] holds, waiting [sleep_us] between two reads,
    reads once more when the time is up, and yields 0 if [cond] holds on the
    last value read and -ETIMEDOUT otherwise. *)
Fixpoint poll_retry (reads : nat) (op : M D Z) (cond : Z -> bool)
    (sleep_us : Z) : M D Z :=
  match reads with
  | O => op
  | S reads' =>
    udelay sleep_us;;
    val ← op;
    if cond val then Return val else poll_retry reads' op cond sleep_us
  end.

(** The first read, and the retries if it does not satisfy [cond]. *)
Definition poll_loop (reads : nat) (op : M D Z) (cond : Z -> bool)
    (sleep_us : Z) : M D Z :=
  val ← op;
  if cond val then Return val else poll_retry reads op cond sleep_us.

(** The timeout in microseconds is a parameter of the macro; in the model
    it is the bus that says how many reads it allows ([poll_reads]). *)
Definition readx_poll_timeout_atomic (op : M D Z) (cond : Z -> bool)
    (sleep_us timeout_us : Z) : M D Z :=
  val ← poll_loop poll_reads op cond sleep_us;
  Return (if cond val then 0 else - ETIMEDOUT).

(** The semaphore bit [bit] is clear in [val]: [!(bit & val)]. *)
Definition bit_clear (bit val : Z) : bool := Z.land bit val =? 0.

(** The seven one-byte status readers: the errno of a failed read, or the
    byte. *)
Definition read_status (addr : Z) : M D Z :=
  '(ret, buf) ← zl3073x_read addr 1;
  if negb (ret =? 0) then Return ret else Return (nth 0 buf 0).

Definition zl3073x_ptp_tod_sem (index : Z) : M D Z := read_status (DPLL_TOD_CTRL index).
Definition zl3073x_ptp_phase_ctrl_op : M D Z := read_status DPLL_OUTPUT_PHASE_STEP_CTRL.
Definition zl3073x_ptp_tie_ctrl_op : M D Z := read_status DPLL_TIE_CTRL.
Definition zl3073x_ref_mb_sem : M D Z := read_status DPLL_REF_MB_SEM.
Definition zl3073x_ptp_synth_mb_sem : M D Z := read_status DPLL_SYNTH_MB_SEM.
Definition zl3073x_dpll_mb_sem : M D Z := read_status DPLL_DPLL_MB_SEM.
Definition zl3073x_ptp_output_mb_sem : M D Z := read_status DPLL_OUTPUT_MB_SEM.

(** ** Time of day *)

Record timespec64 : Type := Timespec { tv_sec : Z; tv_nsec : Z }.

(** Kernel helpers.  [set_normalized_timespec64] moves whole seconds out of
    the nanoseconds, leaving 0 <= tv_nsec < NSEC_PER_SEC; [ns_to_timespec64]
    rounds towards minus infinity in the same way. *)
Definition set_normalized_timespec64 (sec nsec : Z) : timespec64 :=
  Timespec (s64 (sec + nsec / NSEC_PER_SEC)) (nsec mod NSEC_PER_SEC).
Definition ns_to_timespec64 (nsec : Z) : timespec64 :=
  Timespec (nsec / NSEC_PER_SEC) (nsec mod NSEC_PER_SEC).
Definition timespec64_add (lhs rhs : timespec64) : timespec64 :=
  set_normalized_timespec64 (tv_sec lhs + tv_sec rhs) (tv_nsec lhs + tv_nsec rhs).

(** Byte [i] of [x]: [(x >> (8 * i)) & 0xff]. *)
Definition byte_of (x : Z) (i : Z) : Z := Z.land (Z.shiftr x (8 * i)) 0xff.

Definition zl3073x_ptp_timestamp_to_bytearray (ts : timespec64) : list Z * list Z :=
  ([byte_of (tv_sec ts) 0; byte_of (tv_sec ts) 1; byte_of (tv_sec ts) 2;
    byte_of (tv_sec ts) 3; byte_of (tv_sec ts) 4; byte_of (tv_sec ts) 5],
   [byte_of (tv_nsec ts) 0; byte_of (tv_nsec ts) 1; byte_of (tv_nsec ts) 2;
    byte_of (tv_nsec ts) 3; 0; 0]).

(** [acc = buf[0]; for (i = 1; i < n; ++i) { acc <<= 8; acc |= buf[i]; }] *)
Definition be_bytes (n : nat) (buf : list Z) : Z :=
  fold_left (fun acc i => Z.lor (Z.shiftl acc 8) (nth i buf 0)) (seq 1 (n - 1))
    (nth 0 buf 0).

Definition zl3073x_ptp_bytearray_to_timestamp (sec nsec : list Z) : timespec64 :=
  set_normalized_timespec64 (be_bytes DPLL_TOD_SEC_SIZE sec)
                            (be_bytes (DPLL_TOD_NSEC_SIZE - 2) nsec).

Definition tod_sem_clear (index : Z) : M D Z :=
  readx_poll_timeout_atomic (zl3073x_ptp_tod_sem index)
    (bit_clear DPLL_TOD_CTRL_SEM) READ_SLEEP_US READ_TIMEOUT_US.

(** [ts] is what the caller's [*ts] holds; it comes back unchanged when the
    call fails. *)
Definition _zl3073x_ptp_gettime64 (index : Z) (ts : timespec64) (cmd : Z)
    : M D (Z * timespec64) :=
  (* Check that the semaphore is clear *)
  ret ← tod_sem_clear index;
  if negb (ret =? 0) then Return (ret, ts) else
  (* Issue the read command *)
  ret ← zl3073x_write (DPLL_TOD_CTRL index) [u8 (Z.lor DPLL_TOD_CTRL_SEM cmd)] 1;
  if negb (ret =? 0) then Return (ret, ts) else
  (* Check that the semaphore is clear *)
  ret ← tod_sem_clear index;
  if negb (ret =? 0) then Return (ret, ts) else
  (* Read the second and nanoseconds *)
  '(ret, sec) ← zl3073x_read (DPLL_TOD_SEC index) DPLL_TOD_SEC_SIZE;
  if negb (ret =? 0) then Return (ret, ts) else
  '(ret, nsec) ← zl3073x_read (DPLL_TOD_NSEC index) DPLL_TOD_NSEC_SIZE;
  if negb (ret =? 0) then Return (ret, ts) else
  Return (ret, zl3073x_ptp_bytearray_to_timestamp sec nsec).

Definition zl3073x_ptp_gettime64 (index : Z) (ts : timespec64)
    : M D (Z * timespec64) :=
  mutex_lock;;
  r ← _zl3073x_ptp_gettime64 index ts ZL3073X_TOD_CTRL_CMD_READ;
  mutex_unlock;;
  Return r.

Definition _zl3073x_ptp_settime64 (index : Z) (ts : timespec64) (cmd : Z) : M D Z :=
  (* Check that the semaphore is clear *)
  ret ← tod_sem_clear index;
  if negb (ret =? 0) then Return ret else
  (* Convert input to something that DPLL can understand *)
  let '(sec, nsec) := zl3073x_ptp_timestamp_to_bytearray ts in
  (* Write the value *)
  ret ← zl3073x_write (DPLL_TOD_SEC index) sec DPLL_TOD_SEC_SIZE;
  if negb (ret =? 0) then Return ret else
  ret ← zl3073x_write (DPLL_TOD_NSEC index) nsec DPLL_TOD_NSEC_SIZE;
  if negb (ret =? 0) then Return ret else
  (* Issue the write command *)
  zl3073x_write (DPLL_TOD_CTRL index) [u8 (Z.lor DPLL_TOD_CTRL_SEM cmd)] 1.

Definition zl3073x_ptp_settime64 (index : Z) (ts : timespec64) : M D Z :=
  mutex_lock;;
  ret ← _zl3073x_ptp_settime64 index ts ZL3073X_TOD_CTRL_CMD_WRITE_NEXT_1HZ;
  mutex_unlock;;
  Return ret.

(** [zl3073x_ptp_wait_sec_rollover]: the [do { ... } while (true)] loop.  The
    C loop has no counter; [fuel] bounds the iterations of the model only, and
    [None] says that the loop is still running when the fuel is used up. *)
Fixpoint wait_sec_rollover_loop (fuel : nat) (index : Z) (init_ts ts : timespec64)
    : M D (option Z) :=
  match fuel with
  | O => Return None
  | S fuel' =>
    (* Check that the semaphore is clear *)
    ret ← tod_sem_clear index;
    if negb (ret =? 0) then Return (Some ret) else
    (* Read the time *)
    '(ret, ts) ← _zl3073x_ptp_gettime64 index ts ZL3073X_TOD_CTRL_CMD_READ_NEXT_1HZ;
    if negb (ret =? 0) then Return (Some ret) else
    (* Determin if the second has roll over *)
    if tv_sec init_ts =? 0 then
      msleep 10;; wait_sec_rollover_loop fuel' index ts ts
    else if tv_sec init_ts <? tv_sec ts then Return (Some ret)
    else msleep 10;; wait_sec_rollover_loop fuel' index init_ts ts
  end.

Definition zl3073x_ptp_wait_sec_rollover (fuel : nat) (index : Z) : M D (option Z) :=
  wait_sec_rollover_loop fuel index (Timespec 0 0) (Timespec 0 0).

(** ** Synthesizer frequency and the clock servo *)

(** [struct zl3073x_dpll], as far as the driver reads it: the index, the mask
    of outputs that drive a periodic signal, and the function and channel of
    each pin ([pins[i].func], [pins[i].chan]). *)
Record zl3073x_dpll : Type := Dpll {
  index : Z;
  perout_mask : Z;
  pins : list (Z * Z);
}.

(** The four fields of the synthesizer mailbox, combined as the C expression
    [base * mult * numerator / denomitor] does it: [base], [numerator] and
    [denomitor] are u16 and [mult] is u32, so after the integer promotions
    every operation is an [unsigned int] one. *)
Definition synth_freq_expr (base mult numerator denomitor : Z) : M D Z :=
  c_div (u32 (u32 (base * mult) * numerator)) denomitor.

(** Returns [ret] and what [*synthFreq] holds afterwards. *)
Definition _zl3073x_ptp_get_synth_freq (synth : Z) (synthFreq : Z) : M D (Z * Z) :=
  (* Select the synth *)
  ret ← zl3073x_write DPLL_SYNTH_MB_MASK [u8 (BIT synth); 0; 0; 0]
          DPLL_SYNTH_MB_MASK_SIZE;
  if negb (ret =? 0) then Return (ret, synthFreq) else
  (* Select read command *)
  ret ← zl3073x_write DPLL_SYNTH_MB_SEM [DPLL_SYNTH_MB_SEM_RD; 0; 0; 0]
          DPLL_SYNTH_MB_SEM_SIZE;
  if negb (ret =? 0) then Return (ret, synthFreq) else
  (* Wait for the command to actually finish *)
  ret ← readx_poll_timeout_atomic zl3073x_ptp_synth_mb_sem
          (bit_clear DPLL_SYNTH_MB_SEM_RD) READ_SLEEP_US READ_TIMEOUT_US;
  if negb (ret =? 0) then Return (ret, synthFreq) else
  '(ret, buf) ← zl3073x_read DPLL_SYNTH_FREQ_BASE DPLL_SYNTH_FREQ_BASE_SIZE;
  if negb (ret =? 0) then Return (ret, synthFreq) else
  let base := u16 (Z.lor (u16 (Z.shiftl (nth 0 buf 0) 8)) (nth 1 buf 0)) in
  '(ret, buf) ← zl3073x_read DPLL_SYNTH_FREQ_MULT DPLL_SYNTH_FREQ_MULT_SIZE;
  if negb (ret =? 0) then Return (ret, synthFreq) else
  let mult := u32 (Z.lor (Z.lor (Z.lor (Z.shiftl (nth 0 buf 0) 24)
                                       (Z.shiftl (nth 1 buf 0) 16))
                                (Z.shiftl (nth 2 buf 0) 8))
                         (nth 3 buf 0)) in
  '(ret, buf) ← zl3073x_read DPLL_SYNTH_FREQ_M DPLL_SYNTH_FREQ_M_SIZE;
  if negb (ret =? 0) then Return (ret, synthFreq) else
  let numerator := u16 (Z.lor (u16 (Z.shiftl (nth 0 buf 0) 8)) (nth 1 buf 0)) in
  '(ret, buf) ← zl3073x_read DPLL_SYNTH_FREQ_N DPLL_SYNTH_FREQ_N_SIZE;
  if negb (ret =? 0) then Return (ret, synthFreq) else
  let denomitor := u16 (Z.lor (u16 (Z.shiftl (nth 0 buf 0) 8)) (nth 1 buf 0)) in
  freq ← synth_freq_expr base mult numerator denomitor;
  Return (ret, freq).

(** [div_s64(dividend, divisor)] and [div_u64(dividend, divisor)]: the divisor
    is a 32-bit parameter. *)
Definition div_s64 (dividend divisor : Z) : M D Z :=
  c_div (s64 dividend) (s32 divisor).
Definition div_u64 (dividend divisor : Z) : M D Z :=
  c_div (u64 dividend) (u32 divisor).

Definition _zl3073x_ptp_steptime (dpll : zl3073x_dpll) (delta : Z) : M D Z :=
  (* Wait for the previous command to finish *)
  ret ← readx_poll_timeout_atomic zl3073x_ptp_phase_ctrl_op
          (bit_clear DPLL_OUTPUT_PHASE_STEP_CTRL_OP_MASK)
          READ_SLEEP_US READ_TIMEOUT_US;
  if negb (ret =? 0) then Return ret else
  (* Set the number of steps to take *)
  ret ← zl3073x_write DPLL_OUTPUT_PHASE_STEP_NUMBER [1; 0; 0; 0]
          DPLL_OUTPUT_PHASE_STEP_NUMBER_SIZE;
  if negb (ret =? 0) then Return ret else
  (* Get the synth that is connected to the output *)
  '(ret, buf) ← zl3073x_read (DPLL_OUTPUT_CTRL (__ffs (perout_mask dpll)))
                  DPLL_OUTPUT_CTRL_SIZE;
  if negb (ret =? 0) then Return ret else
  let synth := u8 (DPLL_OUTPUT_CTRL_SYNTH_SEL_GET (nth 0 buf 0)) in
  '(ret, synthFreq) ← _zl3073x_ptp_get_synth_freq synth 0;
  if negb (ret =? 0) then Return ret else
  (* Configure the step *)
  q ← div_s64 (u64 (delta * synthFreq)) NSEC_PER_SEC;
  let register_units := s32 q in
  ret ← zl3073x_write DPLL_OUTPUT_PHASE_STEP_DATA
          [byte_of register_units 0; byte_of register_units 1;
           byte_of register_units 2; byte_of register_units 3]
          DPLL_OUTPUT_PHASE_STEP_DATA_SIZE;
  if negb (ret =? 0) then Return ret else
  (* Select which output should be adjusted *)
  ret ← zl3073x_write DPLL_OUTPUT_PHASE_STEP_MASK [u8 (perout_mask dpll); 0; 0; 0]
          DPLL_OUTPUT_PHASE_STEP_MASK_SIZE;
  if negb (ret =? 0) then Return ret else
  (* Start the phase adjustment on the output pin and also on the ToD *)
  zl3073x_write DPLL_OUTPUT_PHASE_STEP_CTRL
    [u8 (Z.lor (Z.lor (DPLL_OUTPUT_PHASE_STEP_CTRL_DPLL (index dpll))
                      (DPLL_OUTPUT_PHASE_STEP_CTRL_OP DPLL_OUTPUT_PAHSE_STEP_CTRL_OP_WRITE))
               DPLL_OUTPUT_PHASE_STEP_CTRL_TOD_STEP); 0; 0; 0]
    DPLL_OUTPUT_PHASE_STEP_CTRL_SIZE.

(** [zl3073x_ptp_adjtime]; [fuel] is the fuel of [zl3073x_ptp_wait_sec_rollover]
    and [None] means that its loop has not returned. *)
Definition zl3073x_ptp_adjtime (fuel : nat) (dpll : zl3073x_dpll) (delta : Z)
    : M D (option Z) :=
  let out (ret : Z) : M D (option Z) := mutex_unlock;; Return (Some ret) in
  (* Split the offset to apply into seconds and nanoseconds *)
  let delta_sec := Z.quot delta NSEC_PER_SEC in
  let delta_sec_rem := Z.rem delta NSEC_PER_SEC in
  let delta_sec_in_ns := s64 (delta_sec * NSEC_PER_SEC) in
  let delta_sub_sec_in_ns := delta_sec_rem in
  mutex_lock;;
  if (delta >=? NSEC_PER_SEC) || (delta <=? - NSEC_PER_SEC) then
    (* wait for rollover *)
    r ← zl3073x_ptp_wait_sec_rollover fuel (index dpll);
    match r with
    | None => Return None
    | Some ret =>
      if negb (ret =? 0) then out ret else
      (* get the predicted TOD at the next internal 1PPS *)
      '(ret, ts) ← _zl3073x_ptp_gettime64 (index dpll) (Timespec 0 0)
                     ZL3073X_TOD_CTRL_CMD_READ_NEXT_1HZ;
      if negb (ret =? 0) then out ret else
      let ts := timespec64_add ts (ns_to_timespec64 delta_sec_in_ns) in
      ret ← _zl3073x_ptp_settime64 (index dpll) ts
              ZL3073X_TOD_CTRL_CMD_WRITE_NEXT_1HZ;
      if negb (ret =? 0) then out ret else
      (* Wait for the semaphore bit to confirm correct settime application *)
      ret ← tod_sem_clear (index dpll);
      if negb (ret =? 0) then out ret else
      ret ← _zl3073x_ptp_steptime dpll delta_sub_sec_in_ns;
      out ret
    end
  else
    ret ← _zl3073x_ptp_steptime dpll delta_sub_sec_in_ns;
    out ret.

Definition zl3073x_ptp_adjfine (dpll : zl3073x_dpll) (scaled_ppm : Z) : M D Z :=
  let scaled_ppm_s64 := scaled_ppm in
  if scaled_ppm_s64 =? 0 then Return 0 else
  mutex_lock;;
  let ref := s64 (ZL3073X_1PPM_FORMAT * Z.shiftr scaled_ppm_s64 16) in
  let ref := s64 (ref + Z.shiftr (s64 (ZL3073X_1PPM_FORMAT * Z.land 0xffff scaled_ppm_s64)) 16) in
  (* The value that is written in HW is in 2 complement *)
  let ref := neg_s64 ref in
  ret ← zl3073x_write (DPLL_DF_OFFSET (index dpll))
          [u8 (Z.shiftr ref 0); u8 (Z.shiftr ref 8); u8 (Z.shiftr ref 16);
           u8 (Z.shiftr ref 24); u8 (Z.shiftr ref 32); u8 (Z.shiftr ref 40)] 6;
  mutex_unlock;;
  Return ret.

(** ** Reference priority *)

Definition zl3073x_dpll_get_priority_ref (dpll_index refId prio : Z) : M D (Z * Z) :=
  let out (ret prio : Z) : M D (Z * Z) := mutex_unlock;; Return (ret, prio) in
  mutex_lock;;
  ret ← zl3073x_write DPLL_DPLL_MB_MASK [u8 (BIT dpll_index); 0; 0] DPLL_DPLL_MB_MASK_SIZE;
  if negb (ret =? 0) then out ret prio else
  (* Select read command *)
  ret ← zl3073x_write DPLL_DPLL_MB_SEM [DPLL_DPLL_MB_SEM_RD; 0; 0] DPLL_DPLL_MB_SEM_SIZE;
  if negb (ret =? 0) then out ret prio else
  (* Wait for the command to actually finish *)
  ret ← readx_poll_timeout_atomic zl3073x_dpll_mb_sem
          (bit_clear DPLL_DPLL_MB_SEM_RD) READ_SLEEP_US READ_TIMEOUT_US;
  if negb (ret =? 0) then out ret prio else
  '(ret, buf) ← zl3073x_read (DPLL_REF_PRIORITY refId) 1;
  if negb (ret =? 0) then out ret prio else
  out ret (u32 (DPLL_REF_PRIORITY_GET (nth 0 buf 0) refId)).

Definition zl3073x_dpll_set_priority_ref (dpll_index refId new_priority : Z) : M D Z :=
  let out (ret : Z) : M D Z := mutex_unlock;; Return ret in
  mutex_lock;;
  ret ← zl3073x_write DPLL_DPLL_MB_MASK [u8 (BIT dpll_index); 0; 0] DPLL_DPLL_MB_MASK_SIZE;
  if negb (ret =? 0) then out ret else
  (* Select read command *)
  ret ← zl3073x_write DPLL_DPLL_MB_SEM [DPLL_DPLL_MB_SEM_RD; 0; 0] DPLL_DPLL_MB_SEM_SIZE;
  if negb (ret =? 0) then out ret else
  (* Wait for the command to actually finish *)
  ret ← readx_poll_timeout_atomic zl3073x_dpll_mb_sem
          (bit_clear DPLL_DPLL_MB_SEM_RD) READ_SLEEP_US READ_TIMEOUT_US;
  if negb (ret =? 0) then out ret else
  (* Read the current priority to preserve the other nibble *)
  '(ret, cur) ← zl3073x_read (DPLL_REF_PRIORITY refId) 1;
  if negb (ret =? 0) then out ret else
  let current_priority := nth 0 cur 0 in
  (* Update the priority using the macro *)
  let updated_priority := u8 (DPLL_REF_PRIORITY_SET current_priority refId new_priority) in
  (* Write the updated priority value *)
  ret ← zl3073x_write (DPLL_REF_PRIORITY refId) [updated_priority] 1;
  if negb (ret =? 0) then out ret else
  (* Select write command *)
  ret ← zl3073x_write DPLL_DPLL_MB_SEM [DPLL_DPLL_MB_SEM_WR; 0; 0] DPLL_DPLL_MB_SEM_SIZE;
  if negb (ret =? 0) then out ret else
  (* Wait for the write command to actually finish *)
  ret ← readx_poll_timeout_atomic zl3073x_dpll_mb_sem
          (bit_clear DPLL_DPLL_MB_SEM_WR) READ_SLEEP_US READ_TIMEOUT_US;
  out ret.

(** ** Output phase compensation *)

Definition zl3073x_synth_get (output_index : Z) : M D (Z * Z) :=
  '(ret, buf) ← zl3073x_read (DPLL_OUTPUT_CTRL output_index) DPLL_OUTPUT_CTRL_SIZE;
  Return (ret, u8 (DPLL_OUTPUT_CTRL_SYNTH_SEL_GET (nth 0 buf 0))).

(** [halfSynthCycle = (int)div_u64(PSEC_PER_SEC, (freq*2))] *)
Definition half_synth_cycle (freq : Z) : M D Z :=
  q ← div_u64 PSEC_PER_SEC (u64 (freq * 2));
  Return (s32 q).

(** [(buf[0] << 24) | (buf[1] << 16) | (buf[2] << 8) | (buf[3] << 0)] as an
    [s32]. *)
Definition be32_signed (buf : list Z) : Z :=
  s32 (Z.lor (Z.lor (Z.lor (Z.shiftl (nth 0 buf 0) 24) (Z.shiftl (nth 1 buf 0) 16))
                    (Z.shiftl (nth 2 buf 0) 8))
             (Z.shiftl (nth 3 buf 0) 0)).

(** [phaseAdj] is what the caller's [*phaseAdj] holds before the call. *)
Definition zl3073x_dpll_get_output_phase_adjust (outputIndex phaseAdj : Z)
    : M D (Z * Z) :=
  let out (ret phaseAdj : Z) : M D (Z * Z) := mutex_unlock;; Return (ret, phaseAdj) in
  '(ret, synth) ← zl3073x_synth_get outputIndex;
  if negb (ret =? 0) then Return (ret, phaseAdj) else
  '(ret, freq) ← _zl3073x_ptp_get_synth_freq synth 0;
  if negb (ret =? 0) then Return (ret, phaseAdj) else
  halfSynthCycle ← half_synth_cycle freq;
  mutex_lock;;
  ret ← zl3073x_write DPLL_OUTPUT_MB_MASK [u8 (BIT (Z.quot outputIndex 2)); 0; 0; 0]
          DPLL_OUTPUT_MB_MASK_SIZE;
  if negb (ret =? 0) then out ret phaseAdj else
  (* Select read command *)
  ret ← zl3073x_write DPLL_OUTPUT_MB_SEM [DPLL_OUTPUT_MB_SEM_RD; 0; 0; 0]
          DPLL_OUTPUT_MB_SEM_SIZE;
  if negb (ret =? 0) then out ret phaseAdj else
  (* Wait for the command to actually finish *)
  ret ← readx_poll_timeout_atomic zl3073x_dpll_mb_sem
          (bit_clear DPLL_OUTPUT_MB_SEM_RD) READ_SLEEP_US READ_TIMEOUT_US;
  if negb (ret =? 0) then out ret phaseAdj else
  '(ret, buf) ← zl3073x_read DPLL_OUTPUT_PHASE_COMPENSATION_REG
                  DPLL_OUTPUT_PHASE_COMPENSATION_REG_SIZE;
  if negb (ret =? 0) then out ret phaseAdj else
  (* Combine the 4 bytes into a 32-bit signed integer *)
  let currentPhaseOffsetComp := be32_signed buf in
  if negb (currentPhaseOffsetComp =? 0) then
    let currentPhaseOffsetComp := s32 (currentPhaseOffsetComp * halfSynthCycle) in
    out ret (neg_s32 currentPhaseOffsetComp)
  else out ret phaseAdj.

Definition zl3073x_dpll_set_output_phase_adjust (outputIndex phaseOffsetComp32 : Z)
    : M D Z :=
  let out : M D Z := mutex_unlock;; Return 0 in
  '(ret, synth) ← zl3073x_synth_get outputIndex;
  if negb (ret =? 0) then Return ret else
  '(ret, freq) ← _zl3073x_ptp_get_synth_freq synth 0;
  if negb (ret =? 0) then Return ret else
  halfSynthCycle ← half_synth_cycle freq;
  r ← c_mod_int halfSynthCycle phaseOffsetComp32;
  if negb (r =? 0) then
    (* Not a multiple of halfSynthCycle, return an error *)
    Return (- ERANGE)
  else
  mutex_lock;;
  ret ← zl3073x_write DPLL_OUTPUT_MB_MASK [u8 (BIT (Z.quot outputIndex 2)); 0; 0; 0]
          DPLL_OUTPUT_MB_MASK_SIZE;
  if negb (ret =? 0) then out else
  q ← c_div_int phaseOffsetComp32 halfSynthCycle;
  (* 2's compliment *)
  let phaseOffsetComp32 := neg_s32 q in
  (* Split the 32-bit value into 4 bytes *)
  ret ← zl3073x_write DPLL_OUTPUT_PHASE_COMPENSATION_REG
          [u8 (Z.shiftr phaseOffsetComp32 0); u8 (Z.shiftr phaseOffsetComp32 8);
           u8 (Z.shiftr phaseOffsetComp32 16); u8 (Z.shiftr phaseOffsetComp32 24)]
          DPLL_OUTPUT_PHASE_COMPENSATION_REG_SIZE;
  if negb (ret =? 0) then out else
  (* Select write command *)
  ret ← zl3073x_write DPLL_OUTPUT_MB_SEM [DPLL_REF_MB_SEM_WR; 0; 0; 0]
          DPLL_OUTPUT_MB_SEM_SIZE;
  if negb (ret =? 0) then out else
  (* Wait for the command to actually finish *)
  ret ← readx_poll_timeout_atomic zl3073x_dpll_mb_sem
          (bit_clear DPLL_OUTPUT_MB_SEM_WR) READ_SLEEP_US READ_TIMEOUT_US;
  out.

(** ** Reference input frequency *)

(** The lookup table of [zl3073x_dpll_set_input_frequency]:
    (baseFreq, multiplier, numerator, denominator) of a supported frequency. *)
Definition input_frequency_table (frequency : Z) : option (Z * Z * Z * Z) :=
  if frequency =? 1 then Some (0x0001, 0x0001, 0x0001, 0x0001)
  else if frequency =? 25 then Some (0x0001, 0x0019, 0x0001, 0x0001)
  else if frequency =? 100 then Some (0x0001, 0x0064, 0x0001, 0x0001)
  else if frequency =? 1000 then Some (0x0001, 0x03E8, 0x0001, 0x0001)
  else if frequency =? 10000000 then Some (0x2710, 0x03E8, 0x0001, 0x0001)
  else if frequency =? 25000000 then Some (0x61A8, 0x03E8, 0x0001, 0x0001)
  else if frequency =? 62500000 then Some (0x4E20, 0x0C35, 0x0001, 0x0001)
  else if frequency =? 78125000 then Some (0x1E848, 0x0271, 0x0001, 0x0001)
  else if frequency =? 100000000 then Some (0x4E20, 0x1388, 0x0001, 0x0001)
  else None.

(** The nine frequencies of [enum zl3073x_pin_input_frequency]. *)
Definition input_frequencies : list Z :=
  [1; 25; 100; 1000; 10000000; 25000000; 62500000; 78125000; 100000000].

(** [buf[0] = (u8)(x >> 0); buf[1] = (u8)(x >> 8);] *)
Definition le16 (x : Z) : list Z := [u8 (Z.shiftr x 0); u8 (Z.shiftr x 8)].

Definition zl3073x_dpll_set_input_frequency (refId frequency : Z) : M D Z :=
  let out (ret : Z) : M D Z := mutex_unlock;; Return ret in
  match input_frequency_table frequency with
  | None => Return (- EOPNOTSUPP)
  | Some (baseFreq, multiplier, numerator, denominator) =>
    mutex_lock;;
    ret ← zl3073x_write DPLL_REF_MB_MASK [u8 (BIT refId); 0] DPLL_DPLL_MB_MASK_SIZE;
    if negb (ret =? 0) then out ret else
    ret ← zl3073x_write DPLL_REF_FREQ_BASE_REG (le16 baseFreq) DPLL_REF_FREQ_BASE_REG_SIZE;
    if negb (ret =? 0) then out ret else
    ret ← zl3073x_write DPLL_REF_FREQ_MULT_REG (le16 multiplier) DPLL_REF_FREQ_MULT_REG_SIZE;
    if negb (ret =? 0) then out ret else
    ret ← zl3073x_write DPLL_REF_FREQ_RATIO_M_REG (le16 numerator)
            DPLL_REF_FREQ_RATIO_M_REG_SIZE;
    if negb (ret =? 0) then out ret else
    ret ← zl3073x_write DPLL_REF_FREQ_RATIO_N_REG (le16 denominator)
            DPLL_REF_FREQ_RATIO_N_REG_SIZE;
    if negb (ret =? 0) then out ret else
    (* Select write command *)
    ret ← zl3073x_write DPLL_REF_MB_SEM [DPLL_REF_MB_SEM_WR; 0] DPLL_REF_MB_SEM_SIZE;
    if negb (ret =? 0) then out ret else
    (* Wait for the command to actually finish *)
    ret ← readx_poll_timeout_atomic zl3073x_dpll_mb_sem
            (bit_clear DPLL_REF_MB_SEM_WR) READ_SLEEP_US READ_TIMEOUT_US;
    out ret
  end.

(** [((buf[0] << 8) | (buf[1] << 0))] as a [u32]. *)
Definition be16 (buf : list Z) : Z :=
  u32 (Z.lor (Z.shiftl (nth 0 buf 0) 8) (Z.shiftl (nth 1 buf 0) 0)).

(** The [switch (inputFreq)] of [zl3073x_dpll_get_input_frequency]. *)
Definition input_frequency_of (inputFreq : Z) : option Z :=
  if existsb (Z.eqb inputFreq) input_frequencies then Some inputFreq else None.

(** [frequency] is what the caller's [*frequency] holds before the call. *)
Definition zl3073x_dpll_get_input_frequency (refId frequency : Z) : M D (Z * Z) :=
  let out (ret frequency : Z) : M D (Z * Z) := mutex_unlock;; Return (ret, frequency) in
  mutex_lock;;
  ret ← zl3073x_write DPLL_REF_MB_MASK [u8 (BIT refId); 0] DPLL_DPLL_MB_MASK_SIZE;
  if negb (ret =? 0) then out ret frequency else
  (* Select read command *)
  ret ← zl3073x_write DPLL_REF_MB_SEM [DPLL_REF_MB_SEM_RD; 0] DPLL_REF_MB_SEM_SIZE;
  if negb (ret =? 0) then out ret frequency else
  (* Wait for the command to actually finish *)
  ret ← readx_poll_timeout_atomic zl3073x_ref_mb_sem
          (bit_clear DPLL_REF_MB_SEM_RD) READ_SLEEP_US READ_TIMEOUT_US;
  if negb (ret =? 0) then out ret frequency else
  '(ret, buf) ← zl3073x_read DPLL_REF_FREQ_BASE_REG DPLL_REF_FREQ_BASE_REG_SIZE;
  if negb (ret =? 0) then out ret frequency else
  let baseFreq := be16 buf in
  '(ret, buf) ← zl3073x_read DPLL_REF_FREQ_MULT_REG DPLL_REF_FREQ_MULT_REG_SIZE;
  if negb (ret =? 0) then out ret frequency else
  let multiplier := be16 buf in
  '(ret, buf) ← zl3073x_read DPLL_REF_FREQ_RATIO_M_REG DPLL_REF_FREQ_RATIO_M_REG_SIZE;
  if negb (ret =? 0) then out ret frequency else
  let numerator := be16 buf in
  '(ret, buf) ← zl3073x_read DPLL_REF_FREQ_RATIO_N_REG DPLL_REF_FREQ_RATIO_N_REG_SIZE;
  if negb (ret =? 0) then out ret frequency else
  let denominator := be16 buf in
  inputFreq ← c_div (u32 (u32 (baseFreq * multiplier) * numerator)) denominator;
  match input_frequency_of inputFreq with
  | Some f => out ret f
  | None => out (- EOPNOTSUPP) frequency
  end.

(** ** Periodic output *)


Definition PTP_PF_PEROUT : Z := 2.









End Driver.

(** ** The DPLL side of the driver: more registers and the kernel's enums *)
Module RegDpll.

Definition DPLL_REF_MON_STATUS (index : Z) : Z := 0x102 + index.
(** [DPLL_REF_MON_STATUS_QUALIFIED(val)] is [(!val)]. *)
Definition DPLL_REF_MON_STATUS_QUALIFIED (val : Z) : bool := val =? 0.
Definition DPLL_MON_STATUS (index : Z) : Z := 0x110 + index.
Definition DPLL_MON_STATUS_HO_READY_GET (val : Z) : Z :=
  Z.shiftr (Z.land val (GENMASK 2 2)) 2.
Definition DPLL_LOCK_REFSEL_STATUS (index : Z) : Z := 0x130 + index.
Definition DPLL_LOCK_REFSEL_LOCK_GET (val : Z) : Z :=
  Z.shiftr (Z.land val (GENMASK 6 4)) 4.
Definition DPLL_LOCK_REFSEL_REF_GET (val : Z) : Z := Z.land val (GENMASK 3 0).
Definition DPLL_REF_FREQ_ERR (ref : Z) : Z := 0x144 + ref * 0x4.
Definition DPLL_REF_PHASE_ERR_RQST : Z := 0x20f.
Definition DPLL_REF_PHASE_ERR_RQST_MASK : Z := GENMASK 0 0.
Definition REF_FREQ_MEAS_CTRL : Z := 0x21C.
Definition REF_FREQ_MEAS_CTRL_MASK : Z := GENMASK 1 0.
Definition REF_FREQ_MEAS_MASK_3_0 : Z := 0x21D.
Definition REF_FREQ_MEAS_MASK_4 : Z := 0x21E.
Definition DPLL_MEAS_REF_FREQ_CTRL : Z := 0x21F.
Definition DPLL_MEAS_REF_FREQ_MASK_SHIFT : Z := 4.
Definition DPLL_REF_PHASE_ERR (ref : Z) : Z := 0x220 + ref * 0x6.
Definition DPLL_MODE_REFSEL (index : Z) : Z := 0x284 + index * 0x4.
Definition DPLL_MODE_REFSEL_MODE_GET (val : Z) : Z := Z.land val (GENMASK 2 0).
Definition DPLL_MODE_REFSEL_REF_GET (val : Z) : Z := Z.land val (GENMASK 7 4).
Definition DPLL_TIE_CTRL_MASK : Z := GENMASK 2 0.
Definition DPLL_TIE_CTRL_MASK_REG : Z := 0x2b1.
Definition DPLL_TIE_CTRL_OPERATION : Z := 4.
Definition DPLL_TIE_CTRL_SIZE : nat := 1.
Definition DPLL_MEAS_CTRL : Z := 0x2D0.
Definition DPLL_MEAS_IDX_REG : Z := 0x2D1.
Definition DPLL_MEAS_IDX_MASK : Z := GENMASK 2 0.
Definition DPLL_SYNTH_CTRL (index : Z) : Z := 0x480 + index.
Definition DPLL_SYNTH_CTRL_DPLL_SEL_GET (val : Z) : Z :=
  Z.shiftr (Z.land val (GENMASK 6 4)) 4.
Definition DPLL_TIE_DATA (index : Z) : Z := 0x30c + index * 0x20.
Definition DPLL_REF_PHASE_OFFSET_COMPENSATION_REG : Z := 0x528.
Definition DPLL_REF_PHASE_OFFSET_COMPENSATION_REG_SIZE : nat := 6.
Definition DPLL_REF_SYNC_CTRL : Z := 0x52E.
Definition DPLL_REF_SYNC_CTRL_MODE_GET (val : Z) : Z := Z.land val (GENMASK 3 0).
Definition DPLL_REF_ESYNC_DIV_REG : Z := 0x530.
Definition DPLL_REF_ESYNC_DIV_SIZE : nat := 4.
Definition DPLL_REF_PRIORITY_INVALID : Z := 0xf.
Definition DPLL_OUTPUT_MODE_CLOCK_TYPE_GET (val : Z) : Z := Z.land val (GENMASK 2 0).
Definition DPLL_OUTPUT_ESYNC_DIV_REG : Z := 0x714.
Definition DPLL_OUTPUT_ESYNC_DIV_SIZE : nat := 4.
Definition DPLL_OUTPUT_ESYNC_PULSE_WIDTH_REG : Z := 0x718.
Definition DPLL_OUTPUT_ESYNC_PULSE_WIDTH_SIZE : nat := 4.

Definition ZL3073X_MAX_SYNTH : Z := 5.
Definition ZL3073X_IS_INPUT_PIN (pin : Z) : bool := (pin >=? 20) && (pin <? 30).
Definition ZL3073X_REG_MAP_INPUT_PIN_GET (pin : Z) : Z := pin - 20.
Definition ZL3073X_CHECK_SYNTH_ID (synth : Z) : bool :=
  (synth >=? 0) && (synth <? ZL3073X_MAX_SYNTH).

(** enum zl3073x_mode_t *)
Definition ZL3073X_MODE_FREERUN : Z := 0x0.
Definition ZL3073X_MODE_HOLDOVER : Z := 0x1.
Definition ZL3073X_MODE_REFLOCK : Z := 0x2.
Definition ZL3073X_MODE_AUTO_LOCK : Z := 0x3.
Definition ZL3073X_MODE_NCO : Z := 0x4.

(** enum zl3073x_dpll_state_t *)
Definition ZLS3073X_DPLL_STATE_FREERUN : Z := 0x0.
Definition ZLS3073X_DPLL_STATE_HOLDOVER : Z := 0x1.
Definition ZLS3073X_DPLL_STATE_FAST_LOCK : Z := 0x2.
Definition ZLS3073X_DPLL_STATE_ACQUIRING : Z := 0x3.
Definition ZLS3073X_DPLL_STATE_LOCK : Z := 0x4.

(** enum zl3073x_ref_sync_ctrl_mode_t *)
Definition ZL3073X_REF_SYNC_PAIR_DISABLED : Z := 0x0.
Definition ZL3073X_CLOCK_50_50_ESYNC_25_75 : Z := 0x2.

(** The rest of enum zl3073x_output_mode_signal_format_t, and
    enum zl3073x_output_mode_clock_type_t. *)
Definition ZL3073X_N_DIVIDED : Z := 0xC.
Definition ZL3073X_N_DIVIDED_AND_INVERTED : Z := 0xD.
Definition ZL3073X_NORMAL_CLOCK : Z := 0x0.
Definition ZL3073X_ESYNC : Z := 0x1.
Definition ZL3073X_ESYNC_ALTERNATING : Z := 0x2.

(** [freq_range_esync]: the (min, max) pairs. *)
Definition freq_range_esync : list (Z * Z) := [(0, 0); (1, 1)].

(** [phase_range] *)
Definition phase_range_min : Z := -2147483648.
Definition phase_range_max : Z := 2147483647.

End RegDpll.
Import RegDpll.

(** The enums of the kernel's DPLL interface.  The driver also stores a
    negative errno in a variable of the first two ([*mode = -EINVAL]); the last
    constructor holds such a value. *)
Inductive dpll_mode : Type :=
  | DPLL_MODE_MANUAL
  | DPLL_MODE_AUTOMATIC
  | dpll_mode_int (v : Z).

Inductive dpll_lock_status : Type :=
  | DPLL_LOCK_STATUS_UNLOCKED
  | DPLL_LOCK_STATUS_LOCKED
  | DPLL_LOCK_STATUS_LOCKED_HO_ACQ
  | DPLL_LOCK_STATUS_HOLDOVER
  | dpll_lock_status_int (v : Z).

Inductive dpll_pin_state : Type :=
  | DPLL_PIN_STATE_CONNECTED
  | DPLL_PIN_STATE_DISCONNECTED
  | DPLL_PIN_STATE_SELECTABLE.

Section Dpll.
Context {D : Type} `{Regmap D}.

(** ** Phase adjustment of the clock *)

(** [delta] is the [s32] argument. *)
Definition zl3073x_ptp_adjphase (dpll : zl3073x_dpll) (delta : Z) : M D Z :=
  let out (ret : Z) : M D Z := mutex_unlock;; Return ret in
  let tieWriteOp := DPLL_TIE_CTRL_OPERATION in
  let tieDpll := u8 (BIT (index dpll)) in
  (* Remove seconds and convert to 0.01ps units *)
  let delta_sub_sec_in_ns := s32 (Z.rem delta NSEC_PER_SEC) in
  let delta_sub_sec_in_tie_units := s64 (delta_sub_sec_in_ns * 100000) in
  let tieData :=
    [Z.shiftr (Z.land delta_sub_sec_in_tie_units 0xFF) 0;
     Z.shiftr (Z.land delta_sub_sec_in_tie_units 0xFF00) 8;
     Z.shiftr (Z.land delta_sub_sec_in_tie_units 0xFF0000) 16;
     Z.shiftr (Z.land delta_sub_sec_in_tie_units 0xFF000000) 24;
     Z.shiftr (Z.land delta_sub_sec_in_tie_units 0xFF00000000) 32;
     Z.shiftr (Z.land delta_sub_sec_in_tie_units 0xFF0000000000) 40] in
  mutex_lock;;
  (* Set the ctrl to look at the correct dpll *)
  ret ← zl3073x_write DPLL_TIE_CTRL_MASK_REG [tieDpll] DPLL_TIE_CTRL_SIZE;
  if negb (ret =? 0) then out ret else
  (* Wait for access to the CTRL register *)
  ret ← readx_poll_timeout_atomic zl3073x_ptp_tie_ctrl_op
          (bit_clear DPLL_TIE_CTRL_MASK) READ_SLEEP_US READ_TIMEOUT_US;
  if negb (ret =? 0) then out ret else
  (* Writes data to the tie register *)
  ret ← zl3073x_write (DPLL_TIE_DATA (index dpll)) tieData 6;
  if negb (ret =? 0) then out ret else
  (* Request to write the TIE *)
  ret ← zl3073x_write DPLL_TIE_CTRL [tieWriteOp] DPLL_TIE_CTRL_SIZE;
  if negb (ret =? 0) then out ret else
  (* Wait until the TIE operation is completed *)
  ret ← readx_poll_timeout_atomic zl3073x_ptp_tie_ctrl_op
          (bit_clear DPLL_TIE_CTRL_MASK) READ_SLEEP_US READ_TIMEOUT_US;
  out ret.

(** ** Operating mode and lock status *)

(** The getters return [ret] and what the caller's variable holds after the
    call; their last argument is what it held before. *)
Definition zl3073x_dpll_raw_mode_get (dpll_index raw_mode : Z) : M D (Z * Z) :=
  '(ret, buf) ← zl3073x_read (DPLL_MODE_REFSEL dpll_index) 1;
  if negb (ret =? 0) then Return (ret, raw_mode) else
  Return (ret, u8 (DPLL_MODE_REFSEL_MODE_GET (nth 0 buf 0))).

Definition zl3073x_dpll_map_raw_to_manager_mode (raw_mode : Z) : Z * dpll_mode :=
  if (raw_mode =? ZL3073X_MODE_HOLDOVER) || (raw_mode =? ZL3073X_MODE_REFLOCK)
  then (0, DPLL_MODE_MANUAL)
  else if raw_mode =? ZL3073X_MODE_AUTO_LOCK then (0, DPLL_MODE_AUTOMATIC)
  else (0, dpll_mode_int (- EINVAL)).

Definition zl3073x_dpll_raw_lock_status_get (dpll_index rawLockStatus : Z) : M D (Z * Z) :=
  '(ret, buf) ← zl3073x_read (DPLL_LOCK_REFSEL_STATUS dpll_index) 1;
  if negb (ret =? 0) then Return (ret, rawLockStatus) else
  Return (ret, u8 (DPLL_LOCK_REFSEL_LOCK_GET (nth 0 buf 0))).

Definition zl3073x_dpll_map_raw_to_manager_lock_status (dpll_index dpll_status : Z)
    (lock_status : dpll_lock_status) : M D (Z * dpll_lock_status) :=
  '(ret, buf) ← zl3073x_read (DPLL_MON_STATUS dpll_index) 1;
  if negb (ret =? 0) then Return (ret, lock_status) else
  let ho_ready := u8 (DPLL_MON_STATUS_HO_READY_GET (nth 0 buf 0)) in
  if (dpll_status =? ZLS3073X_DPLL_STATE_FREERUN)
     || (dpll_status =? ZLS3073X_DPLL_STATE_FAST_LOCK)
     || (dpll_status =? ZLS3073X_DPLL_STATE_ACQUIRING)
  then Return (ret, DPLL_LOCK_STATUS_UNLOCKED)
  else if dpll_status =? ZLS3073X_DPLL_STATE_HOLDOVER
  then Return (ret, DPLL_LOCK_STATUS_HOLDOVER)
  else if dpll_status =? ZLS3073X_DPLL_STATE_LOCK
  then if negb (ho_ready =? 0) then Return (ret, DPLL_LOCK_STATUS_LOCKED_HO_ACQ)
       else Return (ret, DPLL_LOCK_STATUS_LOCKED)
  else Return (ret, dpll_lock_status_int (- EINVAL)).

(** The locals [raw_lock_status], [lock_status], [raw_mode] and [dpll_mode]
    of the two callbacks are not initialised; they are read only after a
    callee has set them, which is why their first value does not matter
    here. *)
Definition zl3073x_dpll_lock_status_get (dpll : zl3073x_dpll) (status : dpll_lock_status)
    : M D (Z * dpll_lock_status) :=
  '(ret, raw_lock_status) ← zl3073x_dpll_raw_lock_status_get (index dpll) 0;
  if negb (ret =? 0) then Return (ret, status) else
  '(ret, lock_status) ← zl3073x_dpll_map_raw_to_manager_lock_status (index dpll)
                          raw_lock_status status;
  if negb (ret =? 0) then Return (ret, status) else
  Return (ret, lock_status).

Definition zl3073x_dpll_mode_get (dpll : zl3073x_dpll) (mode : dpll_mode)
    : M D (Z * dpll_mode) :=
  '(ret, raw_mode) ← zl3073x_dpll_raw_mode_get (index dpll) 0;
  if negb (ret =? 0) then Return (ret, mode) else
  let '(ret, dpll_mode) := zl3073x_dpll_map_raw_to_manager_mode raw_mode in
  if negb (ret =? 0) then Return (ret, mode) else
  Return (ret, dpll_mode).

(** ** Phase compensation of a reference input *)

(** [((s64)buf[0] << 40) | ((s64)buf[1] << 32) | ... | ((s64)buf[5] << 0)] *)
Definition be48 (buf : list Z) : Z :=
  Z.lor (Z.lor (Z.lor (Z.lor (Z.lor (Z.shiftl (nth 0 buf 0) 40)
                                    (Z.shiftl (nth 1 buf 0) 32))
                             (Z.shiftl (nth 2 buf 0) 24))
                      (Z.shiftl (nth 3 buf 0) 16))
               (Z.shiftl (nth 4 buf 0) 8))
        (Z.shiftl (nth 5 buf 0) 0).

(** [if (x & (1LL << 47)) x |= 0xFFFF000000000000;] *)
Definition sign_extend_48 (x : Z) : Z :=
  if negb (Z.land x (Z.shiftl 1 47) =? 0) then s64 (Z.lor x 0xFFFF000000000000) else x.

Definition zl3073x_dpll_get_input_phase_adjust (refId phaseAdj : Z) : M D (Z * Z) :=
  let out (ret phaseAdj : Z) : M D (Z * Z) := mutex_unlock;; Return (ret, phaseAdj) in
  mutex_lock;;
  ret ← zl3073x_write DPLL_REF_MB_MASK [u8 (BIT refId); 0; 0; 0; 0; 0]
          DPLL_DPLL_MB_MASK_SIZE;
  if negb (ret =? 0) then out ret phaseAdj else
  (* Select read command *)
  ret ← zl3073x_write DPLL_REF_MB_SEM [DPLL_REF_MB_SEM_RD; 0; 0; 0; 0; 0]
          DPLL_REF_MB_SEM_SIZE;
  if negb (ret =? 0) then out ret phaseAdj else
  (* Wait for the command to actually finish *)
  ret ← readx_poll_timeout_atomic zl3073x_ref_mb_sem
          (bit_clear DPLL_REF_MB_SEM_RD) READ_SLEEP_US READ_TIMEOUT_US;
  if negb (ret =? 0) then out ret phaseAdj else
  '(ret, buf) ← zl3073x_read DPLL_REF_PHASE_OFFSET_COMPENSATION_REG
                  DPLL_REF_PHASE_OFFSET_COMPENSATION_REG_SIZE;
  if negb (ret =? 0) then out ret phaseAdj else
  (* Combine the 6 bytes into a 64-bit signed integer *)
  let currentPhaseOffsetComp := be48 buf in
  (* Perform sign extension for a 48-bit signed value *)
  let currentPhaseOffsetComp := sign_extend_48 currentPhaseOffsetComp in
  (* Check if the value fits within Sint32 range *)
  if (currentPhaseOffsetComp <? phase_range_min) || (currentPhaseOffsetComp >? phase_range_max)
  then out (- ERANGE) phaseAdj
  else
    (* Convert to 32-bit signed integer *)
    let phaseOffsetComp32 := s32 currentPhaseOffsetComp in
    (* Reverse the two's complement negation applied during 'set' *)
    out ret (neg_s32 phaseOffsetComp32).

Definition zl3073x_dpll_set_input_phase_adjust (refId phaseOffsetComp32 : Z) : M D Z :=
  let out (ret : Z) : M D Z := mutex_unlock;; Return ret in
  (* Convert the 32-bit signed value to 64-bit format *)
  let phaseOffsetComp48 := phaseOffsetComp32 in
  (* Mask the upper 16 bits to ensure it's within 48 bits *)
  let phaseOffsetComp48 := Z.land phaseOffsetComp48 0xFFFFFFFFFFFF in
  mutex_lock;;
  ret ← zl3073x_write DPLL_REF_MB_MASK [u8 (BIT refId); 0; 0; 0; 0; 0]
          DPLL_DPLL_MB_MASK_SIZE;
  if negb (ret =? 0) then out ret else
  (* 2's compliment *)
  let phaseOffsetComp48 := neg_s64 phaseOffsetComp48 in
  (* Split the 48-bit value into 6 bytes *)
  ret ← zl3073x_write DPLL_REF_PHASE_OFFSET_COMPENSATION_REG
          [u8 (Z.shiftr phaseOffsetComp48 0); u8 (Z.shiftr phaseOffsetComp48 8);
           u8 (Z.shiftr phaseOffsetComp48 16); u8 (Z.shiftr phaseOffsetComp48 24);
           u8 (Z.shiftr phaseOffsetComp48 32); u8 (Z.shiftr phaseOffsetComp48 40)]
          DPLL_REF_PHASE_OFFSET_COMPENSATION_REG_SIZE;
  if negb (ret =? 0) then out ret else
  (* Select write command *)
  ret ← zl3073x_write DPLL_REF_MB_SEM [DPLL_REF_MB_SEM_WR; 0; 0; 0; 0; 0]
          DPLL_REF_MB_SEM_SIZE;
  if negb (ret =? 0) then out ret else
  (* Wait for the command to actually finish *)
  ret ← readx_poll_timeout_atomic zl3073x_dpll_mb_sem
          (bit_clear DPLL_REF_MB_SEM_WR) READ_SLEEP_US READ_TIMEOUT_US;
  out ret.

(** ** State of a pin on a DPLL *)

Definition zl3073x_dpll_forced_ref_get (dpll_index dpll_ref : Z) : M D (Z * Z) :=
  '(ret, buf) ← zl3073x_read (DPLL_MODE_REFSEL dpll_index) 1;
  if negb (ret =? 0) then Return (ret, dpll_ref) else
  Return (ret, u8 (DPLL_MODE_REFSEL_REF_GET (nth 0 buf 0))).

Definition zl3073x_dpll_ref_selected_get (dpll_index ref_selected : Z) : M D (Z * Z) :=
  '(ret, buf) ← zl3073x_read (DPLL_LOCK_REFSEL_STATUS dpll_index) 1;
  if negb (ret =? 0) then Return (ret, ref_selected) else
  Return (ret, u8 (DPLL_LOCK_REFSEL_REF_GET (nth 0 buf 0))).

Definition zl3073x_dpll_ref_status_get (ref_index ref_status : Z) : M D (Z * Z) :=
  '(ret, buf) ← zl3073x_read (DPLL_REF_MON_STATUS ref_index) 1;
  if negb (ret =? 0) then Return (ret, ref_status) else
  Return (ret, nth 0 buf 0).

Definition zl3073x_dpll_get (synth synth_dpll : Z) : M D (Z * Z) :=
  '(ret, buf) ← zl3073x_read (DPLL_SYNTH_CTRL synth) 1;
  if negb (ret =? 0) then Return (ret, synth_dpll) else
  Return (ret, u8 (DPLL_SYNTH_CTRL_DPLL_SEL_GET (nth 0 buf 0))).

(** [dpll_index] and [ref_index] are [int]; the priority getter takes them as
    [u8].  The uninitialised locals are passed as 0, as above. *)
Definition zl3073x_input_pin_state_get (dpll_index ref_index : Z) (state : dpll_pin_state)
    : M D (Z * dpll_pin_state) :=
  '(ret, ref_status) ← zl3073x_dpll_ref_status_get ref_index 0;
  if negb (ret =? 0) then Return (ret, state) else
  if negb (DPLL_REF_MON_STATUS_QUALIFIED ref_status)
  then Return (ret, DPLL_PIN_STATE_DISCONNECTED) else
  '(ret, mode) ← zl3073x_dpll_raw_mode_get dpll_index 0;
  if negb (ret =? 0) then Return (ret, state) else
  '(ret, forced_ref_index) ← zl3073x_dpll_forced_ref_get dpll_index 0;
  if negb (ret =? 0) then Return (ret, state) else
  if mode =? ZL3073X_MODE_AUTO_LOCK then
    '(ret, selected_ref_index) ← zl3073x_dpll_ref_selected_get dpll_index 0;
    if negb (ret =? 0) then Return (ret, state) else
    '(ret, ref_priority) ← zl3073x_dpll_get_priority_ref (u8 dpll_index) (u8 ref_index) 0;
    if negb (ret =? 0) then Return (ret, state) else
    if ref_index =? selected_ref_index then Return (ret, DPLL_PIN_STATE_CONNECTED)
    else if negb (s32 ref_priority =? DPLL_REF_PRIORITY_INVALID)
    then Return (ret, DPLL_PIN_STATE_SELECTABLE)
    else Return (ret, DPLL_PIN_STATE_DISCONNECTED)
  else if ref_index =? forced_ref_index then Return (ret, DPLL_PIN_STATE_CONNECTED)
  else Return (ret, DPLL_PIN_STATE_DISCONNECTED).

(** The state is set to disconnected before anything is read. *)
Definition zl3073x_output_pin_state_get (dpll_index output_index : Z)
    : M D (Z * dpll_pin_state) :=
  '(ret, synth) ← zl3073x_synth_get (Z.quot output_index 2);
  if negb (ret =? 0) then Return (ret, DPLL_PIN_STATE_DISCONNECTED) else
  if ZL3073X_CHECK_SYNTH_ID synth then
    '(ret, synth_dpll) ← zl3073x_dpll_get synth 0;
    if negb (ret =? 0) then Return (ret, DPLL_PIN_STATE_DISCONNECTED) else
    if synth_dpll =? dpll_index then Return (ret, DPLL_PIN_STATE_CONNECTED)
    else Return (ret, DPLL_PIN_STATE_DISCONNECTED)
  else Return (ret, DPLL_PIN_STATE_DISCONNECTED).

(** [pin] is [zl3073x_pin->index]. *)
Definition zl3073x_dpll_pin_state_on_dpll_get (pin : Z) (dpll : zl3073x_dpll)
    (state : dpll_pin_state) : M D (Z * dpll_pin_state) :=
  if ZL3073X_IS_INPUT_PIN pin then
    let pin_register_index := ZL3073X_REG_MAP_INPUT_PIN_GET pin in
    zl3073x_input_pin_state_get (index dpll) pin_register_index state
  else zl3073x_output_pin_state_get (index dpll) pin.

(** ** Phase and frequency offset of a reference *)

Definition zl3073x_dpll_ref_phase_err_rqst_op : M D Z := read_status DPLL_REF_PHASE_ERR_RQST.
Definition zl3073x_dpll_ref_freq_meas_op : M D Z := read_status REF_FREQ_MEAS_CTRL.

(** [x = 0; x |= ((s64)phase_err[5] << 0); ...; x |= ((s64)phase_err[0] << 40);] *)
Definition phase_err_value (phase_err : list Z) : Z :=
  Z.lor (Z.lor (Z.lor (Z.lor (Z.lor (Z.lor 0 (Z.shiftl (nth 5 phase_err 0) 0))
                                    (Z.shiftl (nth 4 phase_err 0) 8))
                             (Z.shiftl (nth 3 phase_err 0) 16))
                      (Z.shiftl (nth 2 phase_err 0) 24))
               (Z.shiftl (nth 1 phase_err 0) 32))
        (Z.shiftl (nth 0 phase_err 0) 40).

(** Returns [ret] and [*phase_offset], which every path sets. *)
Definition zl3073x_dpll_phase_offset_get (dpll : zl3073x_dpll) (ref_index : Z)
    : M D (Z * Z) :=
  let err (ret : Z) : M D (Z * Z) := mutex_unlock;; Return (ret, 0) in
  let read_rqst := 1 in
  let dpll_meas_idx := u8 (Z.land (index dpll) DPLL_MEAS_IDX_MASK) in
  mutex_lock;;
  ret ← readx_poll_timeout_atomic zl3073x_dpll_ref_phase_err_rqst_op
          (bit_clear DPLL_REF_PHASE_ERR_RQST_MASK) READ_SLEEP_US READ_TIMEOUT_US;
  if negb (ret =? 0) then err ret else
  ret ← zl3073x_write DPLL_MEAS_IDX_REG [dpll_meas_idx] 1;
  if negb (ret =? 0) then err ret else
  '(ret, buf) ← zl3073x_read DPLL_MEAS_CTRL 1;
  if negb (ret =? 0) then err ret else
  let dpll_meas_ctrl := u8 (Z.lor (nth 0 buf 0) 1) in
  ret ← zl3073x_write DPLL_MEAS_CTRL [dpll_meas_ctrl] 1;
  if negb (ret =? 0) then err ret else
  ret ← zl3073x_write DPLL_REF_PHASE_ERR_RQST [read_rqst] 1;
  if negb (ret =? 0) then err ret else
  ret ← readx_poll_timeout_atomic zl3073x_dpll_ref_phase_err_rqst_op
          (bit_clear DPLL_REF_PHASE_ERR_RQST_MASK) READ_SLEEP_US READ_TIMEOUT_US;
  if negb (ret =? 0) then err ret else
  '(ret, phase_err) ← zl3073x_read (DPLL_REF_PHASE_ERR ref_index) 6;
  if negb (ret =? 0) then err ret else
  mutex_unlock;;
  let phase_offset_reg_units := phase_err_value phase_err in
  (* Perform sign extension for a 48-bit signed value *)
  let phase_offset_reg_units := sign_extend_48 phase_offset_reg_units in
  (* The register units are 0.01 ps, and the offset is returned in units of ps. *)
  q ← div_s64 phase_offset_reg_units 100;
  Return (0, q).

(** [x = 0; x |= ((s64)freq_err[3] << 0); ...; x |= ((s64)freq_err[0] << 24);] *)
Definition freq_err_value (freq_err : list Z) : Z :=
  Z.lor (Z.lor (Z.lor (Z.lor 0 (Z.shiftl (nth 3 freq_err 0) 0))
                      (Z.shiftl (nth 2 freq_err 0) 8))
               (Z.shiftl (nth 1 freq_err 0) 16))
        (Z.shiftl (nth 0 freq_err 0) 24).

(** Returns [ret] and [*ffo], which every path sets. *)
Definition zl3073x_dpll_ffo_get (dpll_index ref_index : Z) : M D (Z * Z) :=
  let err (ret : Z) : M D (Z * Z) := mutex_unlock;; Return (ret, 0) in
  let dpll_select_mask := u8 (Z.shiftl dpll_index DPLL_MEAS_REF_FREQ_MASK_SHIFT) in
  let freq_meas_request := 3 in
  let freq_meas_enable := 1 in
  mutex_lock;;
  ret ← readx_poll_timeout_atomic zl3073x_dpll_ref_freq_meas_op
          (bit_clear REF_FREQ_MEAS_CTRL_MASK) READ_SLEEP_US READ_TIMEOUT_US;
  if negb (ret =? 0) then err ret else
  (* Set the dpll mask and enable freq measurement *)
  let dpll_meas_ref_freq_ctrl := u8 (Z.lor (u8 (Z.lor 0 dpll_select_mask)) freq_meas_enable) in
  ret ← zl3073x_write DPLL_MEAS_REF_FREQ_CTRL [dpll_meas_ref_freq_ctrl] 1;
  if negb (ret =? 0) then err ret else
  (* Set the reference mask *)
  ret ← (if ref_index <? 8
         then zl3073x_write REF_FREQ_MEAS_MASK_3_0 [u8 (BIT ref_index)] 1
         else zl3073x_write REF_FREQ_MEAS_MASK_4 [u8 (BIT (ref_index - 8))] 1);
  if negb (ret =? 0) then err ret else
  (* Request a read of the freq offset between the dpll and the reference *)
  ret ← zl3073x_write REF_FREQ_MEAS_CTRL [freq_meas_request] 1;
  if negb (ret =? 0) then err ret else
  ret ← readx_poll_timeout_atomic zl3073x_dpll_ref_freq_meas_op
          (bit_clear REF_FREQ_MEAS_CTRL_MASK) READ_SLEEP_US READ_TIMEOUT_US;
  if negb (ret =? 0) then err ret else
  '(ret, freq_err) ← zl3073x_read (DPLL_REF_FREQ_ERR ref_index) 4;
  if negb (ret =? 0) then err ret else
  mutex_unlock;;
  (* register units for FFO are 2^-32 signed *)
  let freq_offset_reg := freq_err_value freq_err in
  (* Perform sign extension for a 32-bit signed value *)
  let freq_offset_reg :=
    if negb (Z.land (nth 0 freq_err 0) 0x80 =? 0)
    then s64 (Z.lor freq_offset_reg 0xFFFFFFFF00000000) else freq_offset_reg in
  Return (ret, freq_offset_reg).

(** ** Embedded sync *)

(** The loop over [freq_range_esync] that sets [valid_input_freq]. *)
Definition valid_input_freq (freq : Z) : bool :=
  existsb (fun r => (r.1 <=? freq) && (r.2 >=? freq)) freq_range_esync.

(** [buf[3] = (x & 0xFF000000) >> 24; ...; buf[0] = (x & 0xFF) >> 0;] *)
Definition masked_bytes (x : Z) : list Z :=
  [Z.shiftr (Z.land x 0xFF) 0; Z.shiftr (Z.land x 0xFF00) 8;
   Z.shiftr (Z.land x 0xFF0000) 16; Z.shiftr (Z.land x 0xFF000000) 24].

(** [freq] is the [u64] argument. *)
Definition zl3073x_dpll_input_esync_set (dpll_index pin_index freq : Z) : M D Z :=
  let out (ret : Z) : M D Z := mutex_unlock;; Return ret in
  mutex_lock;;
  if negb (valid_input_freq freq) then out (- EINVAL) else
  (* Wait for the mailbox semaphore *)
  ret ← readx_poll_timeout_atomic zl3073x_ref_mb_sem
          (bit_clear DPLL_REF_MB_SEM_RD) READ_SLEEP_US READ_TIMEOUT_US;
  if negb (ret =? 0) then out ret else
  (* Setup reference *)
  ret ← zl3073x_write DPLL_REF_MB_MASK [u8 (BIT pin_index); 0; 0; 0] DPLL_DPLL_MB_MASK_SIZE;
  if negb (ret =? 0) then out ret else
  (* Select read command *)
  ret ← zl3073x_write DPLL_REF_MB_SEM [DPLL_REF_MB_SEM_RD; 0; 0; 0] DPLL_REF_MB_SEM_SIZE;
  if negb (ret =? 0) then out ret else
  (* Wait for the mailbox semaphore *)
  ret ← readx_poll_timeout_atomic zl3073x_ref_mb_sem
          (bit_clear DPLL_REF_MB_SEM_RD) READ_SLEEP_US READ_TIMEOUT_US;
  if negb (ret =? 0) then out ret else
  (* use freq of 0 to disable esync *)
  let ref_sync_ctrl_mode :=
    if freq =? 0 then ZL3073X_REF_SYNC_PAIR_DISABLED else ZL3073X_CLOCK_50_50_ESYNC_25_75 in
  '(ret, buf) ← zl3073x_read DPLL_REF_SYNC_CTRL 1;
  if negb (ret =? 0) then out ret else
  let ref_sync_ctrl := u8 (Z.land (nth 0 buf 0) (GENMASK 7 4)) in
  let ref_sync_ctrl := u8 (Z.lor ref_sync_ctrl (DPLL_REF_SYNC_CTRL_MODE_GET ref_sync_ctrl_mode)) in
  ret ← zl3073x_write DPLL_REF_SYNC_CTRL [ref_sync_ctrl] 1;
  if negb (ret =? 0) then out ret else
  ret ← (if freq >? 0 then
           (* Note that esync_div=0 means esync freq is 1Hz, the only supported
              freq currently *)
           let esync_div := 0 in
           zl3073x_write DPLL_REF_ESYNC_DIV_REG (masked_bytes esync_div) DPLL_REF_ESYNC_DIV_SIZE
         else Return ret);
  if negb (ret =? 0) then out ret else
  (* Write the mailbox changes back to memory *)
  ret ← zl3073x_write DPLL_REF_MB_SEM [DPLL_REF_MB_SEM_WR; 0; 0; 0] DPLL_REF_MB_SEM_SIZE;
  if negb (ret =? 0) then out ret else
  (* Confirm the write was successful *)
  ret ← readx_poll_timeout_atomic zl3073x_ref_mb_sem
          (bit_clear DPLL_REF_MB_SEM_WR) READ_SLEEP_US READ_TIMEOUT_US;
  out ret.

(** [x = 0; x |= ((u32)buf[3] << 0); ...; x |= ((u32)buf[0] << 24);] *)
Definition be32_unsigned (buf : list Z) : Z :=
  u32 (Z.lor (Z.lor (Z.lor (Z.lor 0 (Z.shiftl (nth 3 buf 0) 0))
                           (Z.shiftl (nth 2 buf 0) 8))
                    (Z.shiftl (nth 1 buf 0) 16))
             (Z.shiftl (nth 0 buf 0) 24)).

Definition zl3073x_dpll_output_esync_set (dpll : zl3073x_dpll) (pin_index freq : Z)
    : M D Z :=
  let out (ret : Z) : M D Z := mutex_unlock;; Return ret in
  mutex_lock;;
  if negb (valid_input_freq freq) then out (- EINVAL) else
  (* Make sure nothing else is using the mailbox *)
  ret ← readx_poll_timeout_atomic zl3073x_ptp_output_mb_sem
          (bit_clear DPLL_OUTPUT_MB_SEM_RD) READ_SLEEP_US READ_TIMEOUT_US;
  if negb (ret =? 0) then out ret else
  (* Setup output pin mask *)
  ret ← zl3073x_write DPLL_OUTPUT_MB_MASK [u8 (BIT (Z.quot pin_index 2)); 0; 0; 0]
          DPLL_OUTPUT_MB_MASK_SIZE;
  if negb (ret =? 0) then out ret else
  (* Select read command *)
  ret ← zl3073x_write DPLL_OUTPUT_MB_SEM [DPLL_OUTPUT_MB_SEM_RD; 0; 0; 0]
          DPLL_OUTPUT_MB_SEM_SIZE;
  if negb (ret =? 0) then out ret else
  (* Wait for comfirmation that the mailbox can be read *)
  ret ← readx_poll_timeout_atomic zl3073x_ptp_output_mb_sem
          (bit_clear DPLL_OUTPUT_MB_SEM_RD) READ_SLEEP_US READ_TIMEOUT_US;
  if negb (ret =? 0) then out ret else
  (* Check if esync is enabled *)
  '(ret, buf) ← zl3073x_read DPLL_OUTPUT_MODE 1;
  if negb (ret =? 0) then out ret else
  let output_mode := nth 0 buf 0 in
  let clock_type := u8 (DPLL_OUTPUT_MODE_CLOCK_TYPE_GET output_mode) in
  let signal_format := u8 (DPLL_OUTPUT_MODE_SIGNAL_FORMAT_GET output_mode) in
  (* If N-division is enabled, esync is not enabled and nothing can be done
     except error *)
  if (signal_format =? ZL3073X_N_DIVIDED) || (signal_format =? ZL3073X_N_DIVIDED_AND_INVERTED)
  then out (- EINVAL) else
  (* Note - esync alternating is not supported by this driver *)
  let esync_enabled := if clock_type =? ZL3073X_ESYNC then 1 else 0 in
  ret ← (if esync_enabled =? 0 then
           (* overwrite the clock type *)
           let output_mode := u8 (Z.land output_mode (GENMASK 7 3)) in
           let output_mode :=
             u8 (Z.lor output_mode (DPLL_OUTPUT_MODE_CLOCK_TYPE_GET ZL3073X_ESYNC)) in
           zl3073x_write DPLL_OUTPUT_MODE [output_mode] 1
         else Return ret);
  if negb (ret =? 0) then out ret else
  (* output_div is useful for several calculations *)
  '(ret, buf) ← zl3073x_read DPLL_OUTPUT_DIV DPLL_OUTPUT_DIV_SIZE;
  if negb (ret =? 0) then out ret else
  let output_div := be32_unsigned buf in
  (* esync is now enabled so set the esync_div to get the desired frequency *)
  '(ret, synth) ← zl3073x_synth_get pin_index;
  if negb (ret =? 0) then out ret else
  '(ret, synth_freq) ← _zl3073x_ptp_get_synth_freq synth 0;
  if negb (ret =? 0) then out ret else
  q ← div_u64 synth_freq (u64 (output_div * freq));
  let esync_div := u32 q in
  ret ← zl3073x_write DPLL_OUTPUT_ESYNC_DIV_REG (masked_bytes esync_div)
          DPLL_OUTPUT_ESYNC_DIV_SIZE;
  if negb (ret =? 0) then out ret else
  (* Half of the period in units of 1/2 synth cycle can be represented by the
     output_div. *)
  let esync_pulse := u8 (Z.quot output_div 2) in
  ret ← zl3073x_write DPLL_OUTPUT_ESYNC_PULSE_WIDTH_REG (masked_bytes esync_pulse)
          DPLL_OUTPUT_ESYNC_PULSE_WIDTH_SIZE;
  if negb (ret =? 0) then out ret else
  (* Write the changes to the mailbox *)
  ret ← zl3073x_write DPLL_OUTPUT_MB_SEM [DPLL_OUTPUT_MB_SEM_WR; 0; 0; 0]
          DPLL_OUTPUT_MB_SEM_SIZE;
  if negb (ret =? 0) then out ret else
  (* Wait for the command to actually finish *)
  ret ← readx_poll_timeout_atomic zl3073x_ptp_output_mb_sem
          (bit_clear DPLL_OUTPUT_MB_SEM_WR) READ_SLEEP_US READ_TIMEOUT_US;
  out ret.

(** ** The pin callbacks that exist for input pins only

    [pin] is [zl3073x_pin->index]; input pins have the indices 20 to 29. *)

Definition zl3073x_dpll_pin_prio_get (pin : Z) (dpll : zl3073x_dpll) (prio : Z)
    : M D (Z * Z) :=
  if ZL3073X_IS_INPUT_PIN pin then
    let pin_register_index := ZL3073X_REG_MAP_INPUT_PIN_GET pin in
    zl3073x_dpll_get_priority_ref (index dpll) (u8 pin_register_index) prio
  else Return (- EOPNOTSUPP, prio).

Definition zl3073x_dpll_pin_prio_set (pin : Z) (dpll : zl3073x_dpll) (prio : Z) : M D Z :=
  if ZL3073X_IS_INPUT_PIN pin then
    let pin_register_index := ZL3073X_REG_MAP_INPUT_PIN_GET pin in
    zl3073x_dpll_set_priority_ref (index dpll) (u8 pin_register_index) prio
  else Return (- EOPNOTSUPP).

Definition zl3073x_dpll_pin_phase_offset_get (pin : Z) (dpll : zl3073x_dpll)
    (phase_offset : Z) : M D (Z * Z) :=
  if ZL3073X_IS_INPUT_PIN pin then
    let pin_register_index := u8 (ZL3073X_REG_MAP_INPUT_PIN_GET pin) in
    zl3073x_dpll_phase_offset_get dpll pin_register_index
  else
    (* Phase offset relative to output pins is not supported *)
    Return (- EOPNOTSUPP, 0).

Definition zl3073x_dpll_pin_ffo_get (pin : Z) (dpll : zl3073x_dpll) (ffo : Z)
    : M D (Z * Z) :=
  if ZL3073X_IS_INPUT_PIN pin then
    let pin_register_index := ZL3073X_REG_MAP_INPUT_PIN_GET pin in
    zl3073x_dpll_ffo_get (index dpll) (u8 pin_register_index)
  else Return (- EOPNOTSUPP, ffo).

Definition zl3073x_dpll_pin_esync_set (pin : Z) (dpll : zl3073x_dpll) (freq : Z) : M D Z :=
  if ZL3073X_IS_INPUT_PIN pin then
    let pin_register_index := ZL3073X_REG_MAP_INPUT_PIN_GET pin in
    zl3073x_dpll_input_esync_set (index dpll) pin_register_index freq
  else zl3073x_dpll_output_esync_set dpll pin freq.

End Dpll.

(** ** The previous version of the driver

    The source file holds older versions of the driver after the newest one.
    In the version before the newest, the status readers and
    [zl3073x_synth_get] do not look at the status of their read,
    [_zl3073x_ptp_get_synth_freq] returns the frequency or the error of its
    poll in one value, and [zl3073x_dpll_set_output_phase_adjust] is as
    follows. *)
Module V2.
Section Driver.
Context {D : Type} `{Regmap D}.

Definition read_status (addr : Z) : M D Z :=
  '(_, buf) ← zl3073x_read addr 1;
  Return (nth 0 buf 0).

Definition zl3073x_ptp_synth_mb_sem : M D Z := read_status DPLL_SYNTH_MB_SEM.
Definition zl3073x_dpll_mb_sem : M D Z := read_status DPLL_DPLL_MB_SEM.

Definition zl3073x_synth_get (output_index : Z) : M D Z :=
  '(_, buf) ← zl3073x_read (DPLL_OUTPUT_CTRL output_index) DPLL_OUTPUT_CTRL_SIZE;
  Return (DPLL_OUTPUT_CTRL_SYNTH_SEL_GET (nth 0 buf 0)).

Definition _zl3073x_ptp_get_synth_freq (synth : Z) : M D Z :=
  (* Select the synth *)
  zl3073x_write DPLL_SYNTH_MB_MASK [u8 (BIT synth); 0; 0; 0] DPLL_SYNTH_MB_MASK_SIZE;;
  (* Select read command *)
  zl3073x_write DPLL_SYNTH_MB_SEM [DPLL_SYNTH_MB_SEM_RD; 0; 0; 0] DPLL_SYNTH_MB_SEM_SIZE;;
  (* Wait for the command to actually finish *)
  ret ← readx_poll_timeout_atomic zl3073x_ptp_synth_mb_sem
          (bit_clear DPLL_SYNTH_MB_SEM_RD) READ_SLEEP_US READ_TIMEOUT_US;
  if negb (ret =? 0) then Return ret else
  '(_, buf) ← zl3073x_read DPLL_SYNTH_FREQ_BASE DPLL_SYNTH_FREQ_BASE_SIZE;
  let base := u16 (Z.lor (u16 (Z.shiftl (nth 0 buf 0) 8)) (nth 1 buf 0)) in
  '(_, buf) ← zl3073x_read DPLL_SYNTH_FREQ_MULT DPLL_SYNTH_FREQ_MULT_SIZE;
  let mult := u32 (Z.lor (Z.lor (Z.lor (Z.shiftl (nth 0 buf 0) 24)
                                       (Z.shiftl (nth 1 buf 0) 16))
                                (Z.shiftl (nth 2 buf 0) 8))
                         (nth 3 buf 0)) in
  '(_, buf) ← zl3073x_read DPLL_SYNTH_FREQ_M DPLL_SYNTH_FREQ_M_SIZE;
  let numerator := u16 (Z.lor (u16 (Z.shiftl (nth 0 buf 0) 8)) (nth 1 buf 0)) in
  '(_, buf) ← zl3073x_read DPLL_SYNTH_FREQ_N DPLL_SYNTH_FREQ_N_SIZE;
  let denomitor := u16 (Z.lor (u16 (Z.shiftl (nth 0 buf 0) 8)) (nth 1 buf 0)) in
  synth_freq_expr base mult numerator denomitor.

Definition zl3073x_dpll_set_output_phase_adjust (outputIndex phaseOffsetComp32 : Z)
    : M D Z :=
  let out : M D Z := mutex_unlock;; Return 0 in
  synth ← zl3073x_synth_get outputIndex;
  f ← _zl3073x_ptp_get_synth_freq (u8 synth);
  let freq := u32 f in
  q ← div_u64 1000000000000 (u32 (freq * 2));
  let halfSynthCycle := s32 q in
  r ← c_mod_int halfSynthCycle phaseOffsetComp32;
  if negb (r =? 0) then
    (* Not a multiple of halfSynthCycle, return an error *)
    out
  else
  mutex_lock;;
  zl3073x_write DPLL_OUTPUT_MB_MASK [u8 (BIT (Z.quot outputIndex 2)); 0; 0; 0]
    DPLL_OUTPUT_MB_MASK_SIZE;;
  q ← c_div_int phaseOffsetComp32 halfSynthCycle;
  (* 2's compliment *)
  let phaseOffsetComp32 := neg_s32 q in
  (* Split the 32-bit value into 4 bytes *)
  zl3073x_write DPLL_OUTPUT_PHASE_COMPENSATION_REG
    [u8 (Z.shiftr phaseOffsetComp32 0); u8 (Z.shiftr phaseOffsetComp32 8);
     u8 (Z.shiftr phaseOffsetComp32 16); u8 (Z.shiftr phaseOffsetComp32 24)]
    DPLL_OUTPUT_PHASE_COMPENSATION_REG_SIZE;;
  (* Select write command *)
  zl3073x_write DPLL_OUTPUT_MB_SEM [DPLL_REF_MB_SEM_WR; 0; 0; 0] DPLL_OUTPUT_MB_SEM_SIZE;;
  (* Wait for the command to actually finish *)
  ret ← readx_poll_timeout_atomic zl3073x_dpll_mb_sem
          (bit_clear DPLL_OUTPUT_MB_SEM_WR) READ_SLEEP_US READ_TIMEOUT_US;
  out.

End Driver.
End V2.

(** ** A simulated chip

    A register file whose semaphore and command registers can be wired to a
    fixed value (0: every command completes before the driver looks again;
    a set bit: the semaphore is stuck), with a seconds counter that is
    latched into the ToD registers by the read commands. *)
Module Sim.

Record chip : Type := Chip {
  cells : gmap Z Z;
  hardwired : gmap Z Z;
  seconds : Z;
  tick : Z;
}.

Definition read_byte (c : chip) (a : Z) : Z :=
  match hardwired c !! a with
  | Some v => v
  | None => default 0 (cells c !! a)
  end.

Fixpoint store_bytes (a : Z) (bytes : list Z) (m : gmap Z Z) : gmap Z Z :=
  match bytes with
  | [] => m
  | b :: rest => store_bytes (a + 1) rest (<[a := b]> m)
  end.

(** Most significant byte at the lowest address. *)
Definition be_of (n : nat) (x : Z) : list Z :=
  map (fun i => byte_of x (Z.of_nat (n - 1 - i))) (seq 0 n).
Definition be_value (bytes : list Z) : Z :=
  fold_left (fun acc b => acc * 256 + b) bytes 0.

Definition is_tod_ctrl (a : Z) : bool := (a =? DPLL_TOD_CTRL 0) || (a =? DPLL_TOD_CTRL 1).

Definition sim_read (addr : Z) (count : nat) (c : chip) : Z * list Z * chip :=
  (0, map (fun i => read_byte c (addr + Z.of_nat i)) (seq 0 count), c).

Definition sim_write (addr : Z) (bytes : list Z) (c : chip) : Z * chip :=
  let m := store_bytes addr bytes (cells c) in
  let idx := addr - DPLL_TOD_CTRL 0 in
  match bytes with
  | [b] =>
    if is_tod_ctrl addr && Z.testbit b 3 then
      (* a ToD read command latches the counter, which then moves on *)
      (0, Chip (store_bytes (DPLL_TOD_NSEC idx) (be_of 6 0)
                  (store_bytes (DPLL_TOD_SEC idx) (be_of 6 (seconds c)) m))
               (hardwired c) (seconds c + tick c) (tick c))
    else if is_tod_ctrl addr && Z.testbit b 0 then
      (* a ToD write command loads the counter *)
      (0, Chip m (hardwired c)
               (be_value (map (fun i => default 0 (m !! (DPLL_TOD_SEC idx + i)))
                              [0; 1; 2; 3; 4; 5]))
               (tick c))
    else (0, Chip m (hardwired c) (seconds c) (tick c))
  | _ => (0, Chip m (hardwired c) (seconds c) (tick c))
  end.

(** [n] is the number of polls the timeout allows on the simulated bus. *)
Definition regmap (n : nat) : Regmap chip := {|
  regmap_bulk_read := sim_read;
  regmap_bulk_write := sim_write;
  elapse := fun _ c => c;
  poll_reads := n;
|}.

(** Every semaphore and command register reads idle. *)
Definition idle : gmap Z Z :=
  list_to_map [(DPLL_TIE_CTRL, 0); (DPLL_TOD_CTRL 0, 0); (DPLL_TOD_CTRL 1, 0);
               (DPLL_OUTPUT_PHASE_STEP_CTRL, 0); (DPLL_REF_MB_SEM, 0);
               (DPLL_DPLL_MB_SEM, 0); (DPLL_SYNTH_MB_SEM, 0); (DPLL_OUTPUT_MB_SEM, 0)].

(** A synthesizer mailbox that shows base 0x4E20, multiplier 0x1388 and
    ratio 1/1, which is 100 MHz. *)
Definition synth_100MHz : gmap Z Z :=
  store_bytes DPLL_SYNTH_FREQ_BASE [0x4E; 0x20]
    (store_bytes DPLL_SYNTH_FREQ_MULT [0x00; 0x00; 0x13; 0x88]
       (store_bytes DPLL_SYNTH_FREQ_M [0x00; 0x01]
          (store_bytes DPLL_SYNTH_FREQ_N [0x00; 0x01] ∅))).

Definition chip0 : chip := Chip synth_100MHz idle 1000 0.

End Sim.

(** ** Properties of traces and the inputs of the examples *)

(** The registers a ToD set writes: seconds, nanoseconds and the command
    register of the DPLL. *)
Definition is_tod_register (idx : Z) (a : Z) : bool :=
  (a =? DPLL_TOD_SEC idx) || (a =? DPLL_TOD_NSEC idx) || (a =? DPLL_TOD_CTRL idx).
Definition is_tod_write (idx : Z) (e : event) : bool :=
  match e with EvWrite a _ => is_tod_register idx a | _ => false end.

(** The events of a poll of register [a]: one-byte reads of [a], and
    delays. *)
Definition poll_event (a : Z) (e : event) : Prop :=
  match e with
  | EvRead a' 1 _ _ => a' = a
  | EvDelay _ => True
  | _ => False
  end.




(** Number of events of one call of [readx_poll_timeout_atomic]: at most
    [poll_reads + 2] reads and [poll_reads] delays. *)
Definition poll_events_max {D} `{Regmap D} : nat := 2 * poll_reads + 2.


Module Inputs.
Import Sim.

(** DPLL 0 with output pair 0 driving the periodic output; pin 0 is
    configured as periodic output of channel 0. *)
Definition dpll0 : zl3073x_dpll := Dpll 0 1 [(PTP_PF_PEROUT, 0)].

(** The DPLL mailbox semaphore register reads 0x01 for ever: its write
    request bit never clears. *)
Definition stuck : chip :=
  Chip synth_100MHz (<[DPLL_DPLL_MB_SEM := 1]> idle) 1000 0.
(** The phase step command register never returns to idle. *)
Definition busy_step : chip :=
  Chip synth_100MHz (<[DPLL_OUTPUT_PHASE_STEP_CTRL := 3]> idle) 1000 0.
(** A synthesizer mailbox that shows base 1, multiplier 156250000 and the
    ratio 66/64. *)
Definition synth_ratio : chip :=
  Chip (store_bytes DPLL_SYNTH_FREQ_BASE [0x00; 0x01]
          (store_bytes DPLL_SYNTH_FREQ_MULT [0x09; 0x50; 0x2F; 0x90]
             (store_bytes DPLL_SYNTH_FREQ_M [0x00; 0x42]
                (store_bytes DPLL_SYNTH_FREQ_N [0x00; 0x40] ∅))))
       idle 1000 0.



End Inputs.


(** What [zl3073x_dpll_get_input_frequency] reads back after
    [zl3073x_dpll_set_input_frequency] on the simulated chip. *)
Definition input_frequency_round_trip (n : nat) (refId frequency : Z) (c : Sim.chip)
    : outcome Z * outcome (Z * Z) :=
  let r := @zl3073x_dpll_set_input_frequency _ (Sim.regmap n) refId frequency c in
  (result r,
   result (@zl3073x_dpll_get_input_frequency _ (Sim.regmap n) refId 0 (chip_after r))).

(** What [zl3073x_dpll_get_output_phase_adjust] delivers after
    [zl3073x_dpll_set_output_phase_adjust] on the simulated chip: the result of
    the set, the registers it wrote, and the result of the get for a caller
    whose variable held [before]. *)
Definition output_phase_round_trip (n : nat) (outputIndex v before : Z) (c : Sim.chip)
    : outcome Z * list event * outcome (Z * Z) :=
  let r := @zl3073x_dpll_set_output_phase_adjust _ (Sim.regmap n) outputIndex v c in
  (result r, List.filter is_write (events r),
   result (@zl3073x_dpll_get_output_phase_adjust _ (Sim.regmap n) outputIndex before
             (chip_after r))).


(** * Theorems *)

(** ** Running the monad *)

Section Runs.
Context {D : Type} `{Regmap D}.

Lemma run_bind {A B} (m : M D A) (k : A -> M D B) (d : D) :
  (x ← m; k x) d =
  match m d with
  | (Ret a, d1, e1) => match k a d1 with (o, d2, e2) => (o, d2, e1 ++ e2) end
  | (Oops, d1, e1) => (Oops, d1, e1)
  end.
Proof. reflexivity. Qed.

Lemma run_write (a : Z) (buf : list Z) (n : nat) (d : D) :
  exists ret d', zl3073x_write a buf n d =
                 (Ret ret, d', [EvWrite a (take n (zl3073x_swap buf n))]).
Proof.
  unfold zl3073x_write. destruct (regmap_bulk_write _ _ _) as [ret d'].
  eexists _, _; reflexivity.
Qed.

Lemma run_read (a : Z) (n : nat) (d : D) :
  exists ret buf d', zl3073x_read a n d = (Ret (ret, buf), d', [EvRead a n ret buf])
                     /\ Forall (fun b => 0 <= b < 256) buf /\ length buf = n.
Proof.
  unfold zl3073x_read. destruct (regmap_bulk_read a n d) as [[ret bytes] d'].
  eexists _, _, _; split; [reflexivity|]. split.
  - apply Forall_forall. intros b Hb. apply list_elem_of_In in Hb.
    apply in_map_iff in Hb as (x & <- & _). unfold u8. apply Z.mod_pos_bound. lia.
  - rewrite length_map, length_take, length_app. unfold zeros.
    rewrite repeat_length. lia.
Qed.

(** A status reader returns a value and causes exactly one read. *)
Lemma run_read_status (a : Z) (d : D) :
  exists v ret buf d', read_status a d = (Ret v, d', [EvRead a 1 ret buf]).
Proof.
  unfold read_status. rewrite run_bind.
  destruct (run_read a 1 d) as (ret & buf & d' & -> & _ & _).
  destruct (negb (ret =? 0)); cbn; eauto 10.
Qed.

Lemma run_poll_retry (a : Z) (cond : Z -> bool) (sleep : Z) (n : nat) (d : D) :
  exists v d' evs, poll_retry n (read_status a) cond sleep d = (Ret v, d', evs)
                   /\ Forall (poll_event a) evs /\ (length evs <= 2 * n + 1)%nat.
Proof.
  revert d. induction n as [|n IH]; intros d; cbn [poll_retry].
  - destruct (run_read_status a d) as (v & ret & buf & d' & ->).
    eexists _, _, _; split; [reflexivity|]. split; [repeat constructor | cbn; lia].
  - rewrite run_bind. cbn [udelay]. rewrite run_bind.
    destruct (run_read_status a (elapse sleep d)) as (v & ret & buf & d' & ->).
    destruct (cond v).
    + eexists _, _, _; split; [reflexivity|].
      split; [repeat constructor | cbn; lia].
    + destruct (IH d') as (v' & d'' & evs & -> & Hev & Hlen).
      eexists _, _, _; split; [reflexivity|].
      split; [repeat constructor; assumption | cbn; lia].
Qed.

(** A poll returns 0 or -ETIMEDOUT, and causes only reads of the polled
    register and delays. *)
Lemma run_poll (a : Z) (cond : Z -> bool) (sleep timeout : Z) (d : D) :
  exists ret d' evs,
    readx_poll_timeout_atomic (read_status a) cond sleep timeout d = (Ret ret, d', evs)
    /\ (ret = 0 \/ ret = - ETIMEDOUT)
    /\ Forall (poll_event a) evs /\ (length evs <= poll_events_max)%nat.
Proof.
  unfold readx_poll_timeout_atomic, poll_loop, poll_events_max.
  rewrite !run_bind.
  destruct (run_read_status a d) as (v & ret & buf & d' & ->).
  destruct (cond v) eqn:Hc.
  - cbn. rewrite Hc. eexists _, _, _; split; [reflexivity|].
    split; [now left|]. split; [repeat constructor | cbn; lia].
  - destruct (run_poll_retry a cond sleep poll_reads d') as (v' & d'' & evs & -> & Hev & Hlen).
    cbn. eexists _, _, _; split; [reflexivity|].
    split; [destruct (cond v'); auto|].
    split; [repeat constructor; rewrite app_nil_r; assumption|].
    rewrite app_nil_r. cbn. lia.
Qed.

End Runs.

(** Symbolic execution of a driver function on an arbitrary bus: every bus
    access is replaced by what it returns, every poll by its summary. *)
Ltac unfold_readers :=
  unfold tod_sem_clear in *;
  unfold zl3073x_ptp_tod_sem, zl3073x_ptp_phase_ctrl_op, zl3073x_ptp_tie_ctrl_op,
    zl3073x_ref_mb_sem, zl3073x_ptp_synth_mb_sem, zl3073x_dpll_mb_sem,
    zl3073x_ptp_output_mb_sem in *.

Ltac exec_step :=
  match goal with
  | |- context [zl3073x_write ?a ?b ?n ?d] =>
    let ret := fresh "ret" in let d' := fresh "d" in
    destruct (run_write a b n d) as (ret & d' & ->)
  | |- context [zl3073x_read ?a ?n ?d] =>
    let ret := fresh "ret" in let buf := fresh "buf" in
    let d' := fresh "d" in let Hb := fresh "Hbuf" in let Hn := fresh "Hsize" in
    destruct (run_read a n d) as (ret & buf & d' & -> & Hb & Hn)
  | |- context [readx_poll_timeout_atomic (read_status ?a) ?c ?s ?t ?d] =>
    let ret := fresh "ret" in let d' := fresh "d" in let evs := fresh "evs" in
    let Hr := fresh "Hret" in let He := fresh "Hpoll" in let Hl := fresh "Hlen" in
    destruct (run_poll a c s t d) as (ret & d' & evs & -> & Hr & He & Hl)
  | |- context [if negb (?r =? 0) then _ else _] =>
    let E := fresh "E" in destruct (Z.eqb_spec r 0) as [E|E]; cbn [negb]
  | |- context [c_div ?a ?b ?d] =>
    let E := fresh "Ediv" in unfold c_div at 1; destruct (b =? 0) eqn:E
  | |- context [c_div_int ?a ?b ?d] =>
    let E := fresh "Ediv" in
    unfold c_div_int at 1; destruct (int_div_undefined a b) eqn:E
  | |- context [c_mod_int ?a ?b ?d] =>
    let E := fresh "Ediv" in
    unfold c_mod_int at 1; destruct (int_div_undefined a b) eqn:E
  end.

Ltac exec :=
  unfold_readers;
  repeat first [ rewrite run_bind | exec_step
               | progress cbn [mutex_lock mutex_unlock emit Return oops udelay msleep app] ].

(** ** Reference priority: the untouched nibble survives *)

Section Priority.
Context {D : Type} `{Regmap D}.





End Priority.







(** ** Frequency adjustment by zero *)

(** C10.  [zl3073x_ptp_adjfine] with [scaled_ppm = 0] returns 0 at once: the
    chip is left in the state it was in and there is no event at all, hence no
    register access and no write of the frequency offset register. *)
Theorem adjfine_zero_touches_nothing
    {D : Type} `{Regmap D} (dpll : zl3073x_dpll) (d : D) :
  zl3073x_ptp_adjfine dpll 0 d = (Ret 0, d, []).
Proof. reflexivity. Qed.

(** For every other value the frequency offset register of the DPLL is
    written, between taking and releasing the lock. *)
Lemma adjfine_nonzero_writes_offset
    {D : Type} `{Regmap D} (dpll : zl3073x_dpll) (scaled_ppm : Z) (d : D) :
  scaled_ppm <> 0 ->
  exists bytes,
    events (zl3073x_ptp_adjfine dpll scaled_ppm d) =
    [EvLock; EvWrite (DPLL_DF_OFFSET (index dpll)) bytes; EvUnlock].
Proof.
  intros Hnz. unfold zl3073x_ptp_adjfine.
  apply Z.eqb_neq in Hnz. rewrite Hnz.
  exec. eexists. reflexivity.
Qed.

(** ** Periodic output requests *)




(** ** Synthesizer frequency *)

(** Where the product fits into 32 bits, the C expression is the exact
    quotient. *)
Lemma synth_freq_expr_exact {D : Type} (base mult numerator denomitor : Z) (d : D) :
  0 <= base * mult -> 0 <= numerator ->
  base * mult * numerator < 2 ^ 32 -> 0 < denomitor ->
  @synth_freq_expr D base mult numerator denomitor d =
  (Ret (base * mult * numerator / denomitor), d, []).
Proof.
  intros Hbm Hn Hlt Hd.
  unfold synth_freq_expr, c_div.
  destruct (Z.eqb_spec denomitor 0) as [|_]; [lia|].
  unfold u32, Return. change (2 ^ 32) with 4294967296 in *.
  assert (0 <= base * mult * numerator) by nia.
  destruct (Z.eq_dec numerator 0) as [->|Hnz].
  - rewrite !Z.mul_0_r. reflexivity.
  - assert (base * mult < 4294967296) by nia.
    rewrite (Z.mod_small (base * mult)) by lia.
    rewrite Z.mod_small by lia.
    rewrite Z.quot_div_nonneg by lia. reflexivity.
Qed.

(** C4: the code differs from the claim.  With base 1, multiplier 156250000,
    numerator 66 and denominator 64 in the synthesizer mailbox, the exact
    value of base * multiplier * numerator / denominator is 161132812, but
    [_zl3073x_ptp_get_synth_freq] delivers 26915084: the product 10312500000
    does not fit into the 32 bits of [unsigned int] in which the C expression
    is evaluated, and wraps before the division.  The scenario of the claim
    (0x4E20, 0x1388, 1, 1) gives 100000000. *)
Theorem synth_freq_wraps_at_32_bits :
  result (@_zl3073x_ptp_get_synth_freq _ (Sim.regmap 3) 0 0 Inputs.synth_ratio)
  = Ret (0, 26915084)
  /\ 1 * 156250000 * 66 / 64 = 161132812
  /\ result (@_zl3073x_ptp_get_synth_freq _ (Sim.regmap 3) 0 0 Sim.chip0)
     = Ret (0, 100000000).
Proof. vm_compute. repeat split. Qed.

(** ** Reference input frequency *)

Lemma input_frequency_round_trip_others :
  Forall (fun f => f <> 78125000 ->
                   input_frequency_round_trip 3 0 f Sim.chip0 = (Ret 0, Ret (0, f)))
         input_frequencies.
Proof. repeat constructor; intros Hf; solve [vm_compute; reflexivity | contradiction]. Qed.

(** C1: the code differs from the claim at 78.125 MHz.  The table entry for
    this frequency has base 0x1E848, which does not fit into the two bytes of
    the base register: the bytes 0xE8, 0x48 are written, the read-back product
    is 0xE848 * 0x271 = 37165000, which is in no case of the switch, and
    [zl3073x_dpll_get_input_frequency] returns -EOPNOTSUPP and leaves the
    caller's frequency as it was. *)
Theorem input_frequency_78125000_not_read_back :
  In 78125000 input_frequencies
  /\ In (EvWrite DPLL_REF_FREQ_BASE_REG [0xE8; 0x48])
        (events (@zl3073x_dpll_set_input_frequency _ (Sim.regmap 3) 0 78125000 Sim.chip0))
  /\ 0xE848 * 0x271 = 37165000
  /\ input_frequency_round_trip 3 0 78125000 Sim.chip0 = (Ret 0, Ret (- EOPNOTSUPP, 0)).
Proof. vm_compute. repeat split; auto 20. Qed.

(** ** Output phase compensation *)

(** The unit itself and its negation are accepted and read back. *)
Lemma output_phase_round_trip_unit :
  (output_phase_round_trip 3 0 5000 7 Sim.chip0).2 = Ret (0, 5000) /\
  (output_phase_round_trip 3 0 (-5000) 7 Sim.chip0).2 = Ret (0, -5000).
Proof. vm_compute. split; reflexivity. Qed.

(** C2: the code differs from the claim.  The synthesizer runs at 100 MHz, so
    the half-cycle unit is 5000.  The test is [halfSynthCycle %
    phaseOffsetComp32] where the comment next to it and the claim want
    [phaseOffsetComp32 % halfSynthCycle]: the multiple 10000 is rejected with
    -ERANGE, and the value 2500, which is no multiple, is accepted: 2500 / 5000
    = 0 is written to the compensation register and the get leaves the
    caller's variable (here 7) as it was.  The value 0 divides by zero. *)
Theorem output_phase_multiple_rejected :
  result (@half_synth_cycle Sim.chip 100000000 Sim.chip0) = Ret 5000
  /\ Z.rem 10000 5000 = 0
  /\ (output_phase_round_trip 3 0 10000 7 Sim.chip0).1.1 = Ret (- ERANGE)
  /\ Z.rem 2500 5000 <> 0
  /\ output_phase_round_trip 3 0 2500 7 Sim.chip0 =
     (Ret 0,
      [EvWrite DPLL_SYNTH_MB_MASK [0; 1]; EvWrite DPLL_SYNTH_MB_SEM [2];
       EvWrite DPLL_OUTPUT_MB_MASK [0; 1];
       EvWrite DPLL_OUTPUT_PHASE_COMPENSATION_REG [0; 0; 0; 0];
       EvWrite DPLL_OUTPUT_MB_SEM [1]],
      Ret (0, 7))
  /\ (output_phase_round_trip 3 0 0 7 Sim.chip0).1.1 = Oops.
Proof. vm_compute. repeat split; discriminate. Qed.

Section HiddenTimeout.
Context {D : Type} `{Regmap D}.

Lemma poll_events_no_lock (a : Z) (evs : list event) :
  Forall (poll_event a) evs -> ~ In EvLock evs.
Proof.
  intros Hall Hin. rewrite Forall_forall in Hall.
  apply list_elem_of_In in Hin. exact (Hall _ Hin).
Qed.

(** On every bus: once [zl3073x_dpll_set_output_phase_adjust] has taken the
    lock, it returns 0 (or stops on a division), whatever the writes and the
    poll that follow return.  Its only other return values come from before
    the lock. *)
Lemma set_output_phase_adjust_zero_after_lock (outputIndex phaseOffsetComp32 : Z) (d : D) :
  let r := zl3073x_dpll_set_output_phase_adjust outputIndex phaseOffsetComp32 d in
  In EvLock (events r) -> result r = Ret 0 \/ result r = Oops.
Proof.
  unfold zl3073x_dpll_set_output_phase_adjust, zl3073x_synth_get,
    _zl3073x_ptp_get_synth_freq, synth_freq_expr, half_synth_cycle, div_u64.
  exec; cbn [result events fst snd]; intros Hin;
    try (left; reflexivity); try (right; reflexivity); exfalso;
    repeat (apply in_app_or in Hin as [Hin | Hin] || cbn [In] in Hin
            || destruct Hin as [Hin | Hin]);
    try discriminate; try contradiction;
    try (eapply poll_events_no_lock; eassumption).
Qed.

End HiddenTimeout.

(** C3: the code differs from the claim.  On a chip whose DPLL mailbox
    semaphore reads 0x01 for ever, the last poll of
    [zl3073x_dpll_set_output_phase_adjust] reads the set bit until the time is
    up (here after three delays) and yields -ETIMEDOUT, but the function ends
    in [return 0].  The previous version of the driver returns 0 in the same
    way. *)
Theorem set_output_phase_adjust_hides_timeout :
  let r := @zl3073x_dpll_set_output_phase_adjust _ (Sim.regmap 3) 0 5000 Inputs.stuck in
  result r = Ret 0
  /\ (exists evs,
        events r =
        evs ++ [EvWrite DPLL_OUTPUT_MB_SEM [1];
                EvRead DPLL_DPLL_MB_SEM 1 0 [1]; EvDelay 10;
                EvRead DPLL_DPLL_MB_SEM 1 0 [1]; EvDelay 10;
                EvRead DPLL_DPLL_MB_SEM 1 0 [1]; EvDelay 10;
                EvRead DPLL_DPLL_MB_SEM 1 0 [1];
                EvRead DPLL_DPLL_MB_SEM 1 0 [1]; EvUnlock])
  /\ result (@readx_poll_timeout_atomic _ (Sim.regmap 3)
               (@zl3073x_dpll_mb_sem _ (Sim.regmap 3))
               (bit_clear DPLL_OUTPUT_MB_SEM_WR) READ_SLEEP_US READ_TIMEOUT_US
               (chip_after r))
     = Ret (- ETIMEDOUT)
  /\ result (@V2.zl3073x_dpll_set_output_phase_adjust _ (Sim.regmap 3) 0 5000 Inputs.stuck)
     = Ret 0.
Proof.
  vm_compute. split; [reflexivity|]. split; [|split; reflexivity].
  eexists (_ :: _ :: _ :: _ :: _ :: _ :: _ :: _ :: _ :: _ :: [_]). reflexivity.
Qed.

(** ** Stepping the clock *)

Section Servo.
Context {D : Type} `{Regmap D}.

Lemma poll_events_no_write (a : Z) (evs : list event) :
  Forall (poll_event a) evs -> List.filter is_write evs = [].
Proof.
  induction 1 as [|e evs He _ IH]; [reflexivity|].
  destruct e; cbn in *; try contradiction; assumption.
Qed.

Lemma poll_events_no_tod_write (idx a : Z) (evs : list event) :
  Forall (poll_event a) evs -> Forall (fun e => is_tod_write idx e = false) evs.
Proof.
  induction 1 as [|e evs He _ IH]; constructor; [|assumption].
  destruct e; cbn in *; try contradiction; reflexivity.
Qed.

(** The ToD registers of the two DPLLs are none of the registers of the
    phase step and of the synthesizer mailbox. *)
Lemma step_registers_not_tod (idx : Z) :
  0 <= idx < 2 ->
  Forall (fun a => is_tod_register idx a = false)
    [DPLL_OUTPUT_PHASE_STEP_NUMBER; DPLL_SYNTH_MB_MASK; DPLL_SYNTH_MB_SEM;
     DPLL_OUTPUT_PHASE_STEP_DATA; DPLL_OUTPUT_PHASE_STEP_MASK;
     DPLL_OUTPUT_PHASE_STEP_CTRL].
Proof.
  intros Hidx. assert (idx = 0 \/ idx = 1) as [-> | ->] by lia;
    repeat constructor.
Qed.

Ltac no_tod_write :=
  repeat match goal with
    | |- Forall _ (_ :: _) => constructor
    | |- Forall _ [] => constructor
    | |- Forall _ (_ ++ _) => apply Forall_app; split
    | |- Forall (fun e => is_tod_write _ e = false) ?evs =>
      eapply poll_events_no_tod_write; eassumption
    | |- is_tod_write _ (EvWrite _ _) = false => cbn [is_tod_write]; assumption
    | |- is_tod_write _ _ = false => reflexivity
    end.

Lemma steptime_no_tod_write (dpll : zl3073x_dpll) (delta : Z) (d : D) :
  0 <= index dpll < 2 ->
  Forall (fun e => is_tod_write (index dpll) e = false)
         (events (_zl3073x_ptp_steptime dpll delta d)).
Proof.
  intros Hidx. pose proof (step_registers_not_tod _ Hidx) as Hreg.
  repeat match type of Hreg with
         | Forall _ (_ :: _) => apply Forall_cons in Hreg as [? Hreg]
         end.
  unfold _zl3073x_ptp_steptime, _zl3073x_ptp_get_synth_freq, synth_freq_expr, div_s64.
  exec; cbn [events snd]; no_tod_write.
Qed.

(** Below one second [zl3073x_ptp_adjtime] is the phase step of the whole
    offset, under the lock. *)
Lemma adjtime_small (fuel : nat) (dpll : zl3073x_dpll) (delta : Z) (d : D) :
  Z.abs delta < NSEC_PER_SEC ->
  zl3073x_ptp_adjtime fuel dpll delta d =
  (mutex_lock;; ret ← _zl3073x_ptp_steptime dpll delta; mutex_unlock;;
   Return (Some ret)) d.
Proof.
  intros Hsmall. unfold zl3073x_ptp_adjtime.
  assert ((delta >=? NSEC_PER_SEC) || (delta <=? - NSEC_PER_SEC) = false) as ->.
  { apply orb_false_iff. split; [rewrite Z.geb_leb|]; apply Z.leb_gt; lia. }
  assert (Z.rem delta NSEC_PER_SEC = delta) as ->.
  { destruct (Z.le_gt_cases 0 delta).
    - apply Z.rem_small. lia.
    - rewrite <- (Z.opp_involutive delta) at 1. rewrite Z.rem_opp_l by (unfold NSEC_PER_SEC; lia).
      rewrite Z.rem_small by lia. lia. }
  reflexivity.
Qed.

Lemma adjtime_small_no_tod_write (fuel : nat) (dpll : zl3073x_dpll) (delta : Z) (d : D) :
  0 <= index dpll < 2 -> Z.abs delta < NSEC_PER_SEC ->
  Forall (fun e => is_tod_write (index dpll) e = false)
         (events (zl3073x_ptp_adjtime fuel dpll delta d)).
Proof.
  intros Hidx Hsmall. rewrite adjtime_small by assumption.
  pose proof (steptime_no_tod_write dpll delta d Hidx) as Hstep.
  rewrite run_bind. cbn [mutex_lock emit]. rewrite run_bind.
  destruct (_zl3073x_ptp_steptime dpll delta d) as [[[ret|] d1] e1];
    cbn in *; constructor; try reflexivity.
  - apply Forall_app. split; [assumption | repeat constructor].
  - assumption.
Qed.

Lemma steptime_zero_writes (dpll : zl3073x_dpll) (d : D) :
  result (_zl3073x_ptp_steptime dpll 0 d) = Ret 0 ->
  exists synth,
    List.filter is_write (events (_zl3073x_ptp_steptime dpll 0 d)) =
    [EvWrite DPLL_OUTPUT_PHASE_STEP_NUMBER [1];
     EvWrite DPLL_SYNTH_MB_MASK [0; u8 (BIT synth)];
     EvWrite DPLL_SYNTH_MB_SEM [DPLL_SYNTH_MB_SEM_RD];
     EvWrite DPLL_OUTPUT_PHASE_STEP_DATA [0; 0; 0; 0];
     EvWrite DPLL_OUTPUT_PHASE_STEP_MASK [0; u8 (perout_mask dpll)];
     EvWrite DPLL_OUTPUT_PHASE_STEP_CTRL
       [u8 (Z.lor (Z.lor (DPLL_OUTPUT_PHASE_STEP_CTRL_DPLL (index dpll))
                         (DPLL_OUTPUT_PHASE_STEP_CTRL_OP DPLL_OUTPUT_PAHSE_STEP_CTRL_OP_WRITE))
                  DPLL_OUTPUT_PHASE_STEP_CTRL_TOD_STEP)]].
Proof.
  unfold _zl3073x_ptp_steptime, _zl3073x_ptp_get_synth_freq, synth_freq_expr, div_s64.
  exec; cbn [result events fst snd]; intros Hres;
    try discriminate; try (injection Hres as ->; contradiction).
  exists (u8 (DPLL_OUTPUT_CTRL_SYNTH_SEL_GET (nth 0 buf 0))).
  rewrite !List.filter_app, (poll_events_no_write _ _ Hpoll).
  cbn [List.filter is_write app].
  rewrite !List.filter_app, (poll_events_no_write _ _ Hpoll0).
  rewrite Z.mul_0_l. reflexivity.
Qed.

(** When the idle poll does not succeed, nothing is written. *)
Lemma steptime_poll_failure_no_write (dpll : zl3073x_dpll) (delta : Z) (d : D) :
  result (readx_poll_timeout_atomic zl3073x_ptp_phase_ctrl_op
            (bit_clear DPLL_OUTPUT_PHASE_STEP_CTRL_OP_MASK)
            READ_SLEEP_US READ_TIMEOUT_US d) <> Ret 0 ->
  List.filter is_write (events (_zl3073x_ptp_steptime dpll delta d)) = [].
Proof.
  unfold _zl3073x_ptp_steptime. unfold_readers. rewrite run_bind.
  destruct (run_poll DPLL_OUTPUT_PHASE_STEP_CTRL
              (bit_clear DPLL_OUTPUT_PHASE_STEP_CTRL_OP_MASK)
              READ_SLEEP_US READ_TIMEOUT_US d) as (ret & d' & evs & -> & _ & Hpoll & _).
  cbn [result fst]. intros Hne.
  destruct (Z.eqb_spec ret 0) as [->|_]; [contradiction|].
  cbn. rewrite app_nil_r. apply (poll_events_no_write _ _ Hpoll).
Qed.

Lemma adjtime_small_run (fuel : nat) (dpll : zl3073x_dpll) (delta : Z) (d : D) :
  Z.abs delta < NSEC_PER_SEC ->
  let s := _zl3073x_ptp_steptime dpll delta d in
  let r := zl3073x_ptp_adjtime fuel dpll delta d in
  match result s with
  | Ret ret => result r = Ret (Some ret) /\ events r = EvLock :: events s ++ [EvUnlock]
  | Oops => result r = Oops /\ events r = EvLock :: events s
  end.
Proof.
  intros Hsmall s r. subst r. rewrite adjtime_small by assumption.
  rewrite run_bind. cbn [mutex_lock emit]. rewrite run_bind. subst s.
  destruct (_zl3073x_ptp_steptime dpll delta d) as [[[ret|] d1] e1];
    cbn; split; reflexivity.
Qed.

End Servo.

(** C7, as stated, fails: on the simulated chip [zl3073x_ptp_adjtime] with
    delta = 0 writes six registers after the idle poll. *)
Lemma adjtime_zero_writes_registers :
  List.filter is_write
    (events (@zl3073x_ptp_adjtime _ (Sim.regmap 3) 1 Inputs.dpll0 0 Sim.chip0)) =
  [EvWrite DPLL_OUTPUT_PHASE_STEP_NUMBER [1];
   EvWrite DPLL_SYNTH_MB_MASK [0; 1];
   EvWrite DPLL_SYNTH_MB_SEM [2];
   EvWrite DPLL_OUTPUT_PHASE_STEP_DATA [0; 0; 0; 0];
   EvWrite DPLL_OUTPUT_PHASE_STEP_MASK [0; 1];
   EvWrite DPLL_OUTPUT_PHASE_STEP_CTRL [11]].
Proof. vm_compute. reflexivity. Qed.

(** C7, amended.  With delta = 0 [zl3073x_ptp_adjtime] takes the phase step
    path with a step of zero: it never writes a ToD register; when the poll
    for the previous phase step does not succeed it writes nothing; and when
    it returns 0 it has written, in this order, the step count 1, the select
    and the read request of the synthesizer mailbox, the step value 0, the
    output mask and the step command. *)
Theorem adjtime_zero_is_a_zero_phase_step
    {D : Type} `{Regmap D} (fuel : nat) (dpll : zl3073x_dpll) (d : D) :
  0 <= index dpll < 2 ->
  let r := zl3073x_ptp_adjtime fuel dpll 0 d in
  Forall (fun e => is_tod_write (index dpll) e = false) (events r)
  /\ (result (readx_poll_timeout_atomic zl3073x_ptp_phase_ctrl_op
                (bit_clear DPLL_OUTPUT_PHASE_STEP_CTRL_OP_MASK)
                READ_SLEEP_US READ_TIMEOUT_US d) <> Ret 0 ->
      List.filter is_write (events r) = [])
  /\ (result r = Ret (Some 0) ->
      exists synth,
        List.filter is_write (events r) =
        [EvWrite DPLL_OUTPUT_PHASE_STEP_NUMBER [1];
         EvWrite DPLL_SYNTH_MB_MASK [0; u8 (BIT synth)];
         EvWrite DPLL_SYNTH_MB_SEM [DPLL_SYNTH_MB_SEM_RD];
         EvWrite DPLL_OUTPUT_PHASE_STEP_DATA [0; 0; 0; 0];
         EvWrite DPLL_OUTPUT_PHASE_STEP_MASK [0; u8 (perout_mask dpll)];
         EvWrite DPLL_OUTPUT_PHASE_STEP_CTRL
           [u8 (Z.lor (Z.lor (DPLL_OUTPUT_PHASE_STEP_CTRL_DPLL (index dpll))
                             (DPLL_OUTPUT_PHASE_STEP_CTRL_OP
                                DPLL_OUTPUT_PAHSE_STEP_CTRL_OP_WRITE))
                      DPLL_OUTPUT_PHASE_STEP_CTRL_TOD_STEP)]]).
Proof.
  intros Hidx r.
  assert (Z.abs 0 < NSEC_PER_SEC) as Hsmall by (cbn; reflexivity).
  split; [apply adjtime_small_no_tod_write; assumption|].
  pose proof (adjtime_small_run fuel dpll 0 d Hsmall) as Hrun. cbn zeta in Hrun.
  fold r in Hrun.
  assert (List.filter is_write (events r) =
          List.filter is_write (events (_zl3073x_ptp_steptime dpll 0 d))) as Hw.
  { destruct (result (_zl3073x_ptp_steptime dpll 0 d)); destruct Hrun as [_ ->];
      cbn [List.filter is_write]; [|reflexivity].
    rewrite List.filter_app. cbn. apply app_nil_r. }
  rewrite Hw. split.
  - apply steptime_poll_failure_no_write.
  - intros Hres. apply steptime_zero_writes.
    destruct (result (_zl3073x_ptp_steptime dpll 0 d)); destruct Hrun as [Hr _];
      rewrite Hr in Hres; [injection Hres as ->; reflexivity | discriminate].
Qed.

(** When the phase step command register never returns to idle, the call
    ends with the timeout of its first poll and has written nothing. *)
Lemma adjtime_zero_on_busy_chip :
  let r := @zl3073x_ptp_adjtime _ (Sim.regmap 3) 1 Inputs.dpll0 0 Inputs.busy_step in
  result r = Ret (Some (- ETIMEDOUT)) /\ List.filter is_write (events r) = [].
Proof. vm_compute. split; reflexivity. Qed.

(** On the simulated chip the call returns 0, so the six writes are made. *)
Lemma adjtime_zero_is_a_zero_phase_step_witness :
  0 <= index Inputs.dpll0 < 2 /\
  result (@zl3073x_ptp_adjtime _ (Sim.regmap 3) 1 Inputs.dpll0 0 Sim.chip0) = Ret (Some 0) /\
  exists synth,
    List.filter is_write
      (events (@zl3073x_ptp_adjtime _ (Sim.regmap 3) 1 Inputs.dpll0 0 Sim.chip0)) =
    [EvWrite DPLL_OUTPUT_PHASE_STEP_NUMBER [1];
     EvWrite DPLL_SYNTH_MB_MASK [0; u8 (BIT synth)];
     EvWrite DPLL_SYNTH_MB_SEM [DPLL_SYNTH_MB_SEM_RD];
     EvWrite DPLL_OUTPUT_PHASE_STEP_DATA [0; 0; 0; 0];
     EvWrite DPLL_OUTPUT_PHASE_STEP_MASK [0; u8 (perout_mask Inputs.dpll0)];
     EvWrite DPLL_OUTPUT_PHASE_STEP_CTRL
       [u8 (Z.lor (Z.lor (DPLL_OUTPUT_PHASE_STEP_CTRL_DPLL (index Inputs.dpll0))
                         (DPLL_OUTPUT_PHASE_STEP_CTRL_OP
                            DPLL_OUTPUT_PAHSE_STEP_CTRL_OP_WRITE))
                  DPLL_OUTPUT_PHASE_STEP_CTRL_TOD_STEP)]].
Proof.
  assert (0 <= index Inputs.dpll0 < 2) as Hidx by (cbn; lia).
  assert (result (@zl3073x_ptp_adjtime _ (Sim.regmap 3) 1 Inputs.dpll0 0 Sim.chip0)
          = Ret (Some 0)) as Hres by (vm_compute; reflexivity).
  split; [exact Hidx|]. split; [exact Hres|].
  exact (proj2 (proj2 (@adjtime_zero_is_a_zero_phase_step _ (Sim.regmap 3) 1
                         Inputs.dpll0 Sim.chip0 Hidx)) Hres).
Defined.

(** ** Waiting for the second to roll over *)

Section Rollover.
Context {D : Type} `{Regmap D}.




End Rollover.





(** ** Stepping by a second or more *)

Section StepOrSlew.
Context {D : Type} `{Regmap D}.










End StepOrSlew.



